(** * Blog-website-flask: a shallow embedding of [app.py]

    The route handlers of [app.py] are embedded as functions in a small
    state-and-exception monad over a [world]: the three relational tables
    (User, BlogPost, Comment) and the client's Flask session (the logged-in
    user id kept by Flask-Login, and the queue of flashed messages).

    What the repository delegates to libraries is modelled as follows.
    - Flask-Login: [current_user] is resolved lazily from the session through
      the [load_user] callback; without a session it is the anonymous user
      object, which has [is_authenticated = False] and no [id] attribute.
    - SQLAlchemy: a table is the list of its rows in storage order; [scalar()]
      is the first matching row, [get_or_404] looks a row up by primary key.
    - werkzeug, WTForms validators, [date.today()], the SMTP server: taken as
      parameters (section variables or arguments of the handler). *)

From Stdlib Require Import ZArith String Ascii List Bool Lia DecimalString.
Import ListNotations.

Local Open Scope string_scope.
Local Open Scope Z_scope.

(** ** Python values *)

(** [str(n)] for an [int]. *)
Definition py_str_int (n : Z) : string := NilZero.string_of_int (Z.to_int n).

(** [str(b)] for a [bool]. *)
Definition py_str_bool (b : bool) : string := if b then "True" else "False".

(** [str(x)] for an [Optional[str]], as an f-string formats it. *)
Definition py_str_opt (x : option string) : string :=
  match x with Some s => s | None => "None" end.

(** The line feed an escape [\n] (or a line break inside a triple-quoted
    literal) stands for. *)
Definition LF : string := String "010" EmptyString.

(** The exceptions that can escape library calls made by the handlers. *)
Inductive exn : Type :=
| AttributeError (msg : string)
| IntegrityError (msg : string)
| SMTPException (msg : string)
| OSError (msg : string)
| OverflowError (msg : string).

(** ** Data model (the columns [app.py] reads and writes) *)

Module User.
Record t : Type := mk { id : Z; email : string; name : string; password : string }.
End User.

Module BlogPost.
(** [author] holds the primary key of the referenced [User]. *)
Record t : Type := mk
  { id : Z; title : string; subtitle : string; date : string;
    body : string; img_url : string; author : Z }.
End BlogPost.

Module Comment.
(** [comment_author] and [parent_post] hold the primary keys of the
    referenced [User] and [BlogPost]. *)
Record t : Type := mk
  { id : Z; text : string; comment_author : Z; parent_post : Z }.
End Comment.

(** Flask-Login's [current_user]: the anonymous user object, or the [User]
    loaded for the session. *)
Inductive identity : Type :=
| AnonymousUserMixin
| LoggedIn (u : User.t).

Definition is_authenticated (cu : identity) : bool :=
  match cu with AnonymousUserMixin => false | LoggedIn _ => true end.

(** ** The world a request runs in *)

Record world : Type := mkWorld
  { users : list User.t;
    posts : list BlogPost.t;
    comments : list Comment.t;
    (** [session['_user_id']] *)
    session_user_id : option Z;
    (** [session['_flashes']]: (category, message), oldest first *)
    flashes : list (string * string) }.

(** A mapped class: its primary key and its table in the world. *)
Class Model (A : Type) : Type :=
  { pk : A -> Z;
    rows : world -> list A;
    set_rows : list A -> world -> world }.

#[export] Instance User_Model : Model User.t :=
  {| pk := User.id;
     rows := users;
     set_rows := fun l w => mkWorld l (posts w) (comments w) (session_user_id w) (flashes w) |}.

#[export] Instance BlogPost_Model : Model BlogPost.t :=
  {| pk := BlogPost.id;
     rows := posts;
     set_rows := fun l w => mkWorld (users w) l (comments w) (session_user_id w) (flashes w) |}.

#[export] Instance Comment_Model : Model Comment.t :=
  {| pk := Comment.id;
     rows := comments;
     set_rows := fun l w => mkWorld (users w) (posts w) l (session_user_id w) (flashes w) |}.

Definition set_session_user_id (s : option Z) (w : world) : world :=
  mkWorld (users w) (posts w) (comments w) s (flashes w).

Definition push_flash (f : string * string) (w : world) : world :=
  mkWorld (users w) (posts w) (comments w) (session_user_id w) (flashes w ++ [f]).

(** ** Tables *)

Section Tables.
Context {A : Type} `{Model A}.

(** The key the storage engine gives the next inserted row: one more than
    the largest key in use, 1 for an empty table. *)
Definition next_pk (t : list A) : Z :=
  1 + fold_right (fun r acc => Z.max (pk r) acc) 0 t.

(** The row with primary key [k]. *)
Definition table_get (t : list A) (k : Z) : option A :=
  find (fun r => pk r =? k) t.

(** [DELETE ... WHERE id = k] *)
Definition table_delete (t : list A) (k : Z) : list A :=
  filter (fun r => negb (pk r =? k)) t.

(** [UPDATE ... WHERE id = pk r'], every column set from [r']. *)
Definition table_update (t : list A) (r' : A) : list A :=
  map (fun r => if pk r =? pk r' then r' else r) t.
End Tables.

(** ** The monad of a request handler *)

(** A computation ends with a value, with [abort(status)], or with an
    uncaught exception. *)
Inductive outcome (A : Type) : Type :=
| Ok (a : A)
| Aborted (status : Z)
| Raised (e : exn).
Arguments Ok {A} a.
Arguments Aborted {A} status.
Arguments Raised {A} e.

Definition M (A : Type) : Type := world -> outcome A * world.

Definition ret {A} (a : A) : M A := fun w => (Ok a, w).

Definition bind {A B} (m : M A) (k : A -> M B) : M B :=
  fun w =>
    match m w with
    | (Ok a, w') => k a w'
    | (Aborted s, w') => (Aborted s, w')
    | (Raised e, w') => (Raised e, w')
    end.

Definition abort {A} (status : Z) : M A := fun w => (Aborted status, w).
Definition raise {A} (e : exn) : M A := fun w => (Raised e, w).

(** [try: body / except: handler] with a bare [except], which catches
    every exception, [abort]'s included. *)
Definition try_except {A} (body handler : M A) : M A :=
  fun w =>
    match body w with
    | (Ok a, w') => (Ok a, w')
    | (_, w') => handler w'
    end.

Declare Scope handler_scope.
Delimit Scope handler_scope with handler.
Notation "x <- c1 ;; c2" := (bind c1 (fun x => c2))
  (at level 61, c1 at next level, right associativity) : handler_scope.
Notation "c1 ;; c2" := (bind c1 (fun _ => c2))
  (at level 61, right associativity) : handler_scope.
Local Open Scope handler_scope.

(** ** Flask-SQLAlchemy *)

(** A primary key as the caller passes it: a Python [int] (what an
    [<int:...>] URL converter yields) or a [str] holding its decimal digits
    (the user id Flask-Login keeps in the session). *)
Inductive pykey : Type :=
| IntKey (k : Z)
| StrKey (k : Z).

Definition key_value (key : pykey) : Z :=
  match key with IntKey k => k | StrKey k => k end.

(** The integers SQLite stores: 64 bits, signed. *)
Definition in_int64 (k : Z) : bool :=
  (- 9223372036854775808 <=? k) && (k <? 9223372036854775808).

(** [db.get_or_404(A, key)]. An [int] outside the 64-bit range cannot be
    bound to the query and raises [OverflowError]; a [str] is bound as
    text and just matches no row. The engine stores no key outside the
    range, so only a key that finds no row can be out of range. *)
Definition db_get_or_404 (A : Type) `{Model A} (key : pykey) : M A :=
  fun w =>
    match table_get (rows w) (key_value key) with
    | Some r => (Ok r, w)
    | None =>
        match key with
        | IntKey k =>
            if in_int64 k then (Aborted 404, w)
            else (Raised (OverflowError
                            "Python int too large to convert to SQLite INTEGER"), w)
        | StrKey _ => (Aborted 404, w)
        end
    end.

(** [db.session.execute(db.select(A).where(p)).scalar()] *)
Definition db_select_scalar (A : Type) `{Model A} (p : A -> bool) : M (option A) :=
  fun w => (Ok (find p (rows w)), w).

(** [db.session.execute(db.select(A)).scalars().all()] *)
Definition db_select_all (A : Type) `{Model A} : M (list A) :=
  fun w => (Ok (rows w), w).

(** [db.session.add(obj); db.session.commit()] for a new object: [obj] is the
    object still waiting for its primary key; the persisted object is
    returned, as [obj] itself is refreshed in Python. *)
Definition db_add_commit {A : Type} `{Model A} (obj : Z -> A) : M A :=
  fun w =>
    let r := obj (next_pk (rows w)) in
    (Ok r, set_rows (rows w ++ [r]) w).

(** [db.session.commit()] after attribute assignments on the loaded
    object [r']. *)
Definition db_commit_dirty {A : Type} `{Model A} (r' : A) : M unit :=
  fun w => (Ok tt, set_rows (table_update (rows w) r') w).

(** ** Requests, forms and responses *)

Inductive http_method : Type := GET | POST.

(** A request to a route that takes a form of type [F]: [formdata] is the
    submitted body (read only when the method is POST). *)
Record Request (F : Type) : Type := mkRequest
  { method : http_method; formdata : F }.
Arguments mkRequest {F} method formdata.
Arguments method {F} r.
Arguments formdata {F} r.

(** A Flask-WTF form object. *)
Record FlaskForm (F : Type) : Type := mkForm
  { is_submitted : bool; data : F }.
Arguments mkForm {F} is_submitted data.
Arguments is_submitted {F} f.
Arguments data {F} f.

(** Building a form with keyword defaults: the fields are bound to the submitted body on a
    POST and to the keyword defaults otherwise. *)
Definition make_form {F : Type} (req : Request F) (defaults : F) : FlaskForm F :=
  match method req with
  | POST => mkForm true (formdata req)
  | GET => mkForm false defaults
  end.

(** [form.validate_on_submit()] for a form whose validators are [validate]. *)
Definition validate_on_submit {F : Type} (validate : F -> bool) (form : FlaskForm F) : bool :=
  is_submitted form && validate (data form).

Module RegisterForm.
Record t : Type := mk { email : string; name : string; password : string }.
Definition blank : t := mk EmptyString EmptyString EmptyString.
End RegisterForm.

Module LoginForm.
Record t : Type := mk { email : string; password : string }.
Definition blank : t := mk EmptyString EmptyString.
End LoginForm.

Module CommentForm.
Record t : Type := mk { comment_text : string }.
Definition blank : t := mk EmptyString.
End CommentForm.

Module CreatePostForm.
Record t : Type := mk
  { title : string; subtitle : string; img_url : string; body : string }.
Definition blank : t := mk EmptyString EmptyString EmptyString EmptyString.
End CreatePostForm.

Module ContactForm.
Record t : Type := mk
  { name : string; email : string; phone_number : string; message : string }.
Definition blank : t := mk EmptyString EmptyString EmptyString EmptyString.
End ContactForm.

(** The view functions [url_for] can name. *)
Inductive endpoint : Type :=
| ep_register
| ep_login
| ep_logout
| ep_get_all_posts
| ep_show_post (post_id : Z)
| ep_add_new_post
| ep_edit_post (post_id : Z)
| ep_delete_post (post_id : Z)
| ep_about
| ep_contact.

(** [url_for(endpoint, ...)], from the [@app.route] rules. *)
Definition url_for (e : endpoint) : string :=
  match e with
  | ep_register => "/register"
  | ep_login => "/login"
  | ep_logout => "/logout"
  | ep_get_all_posts => "/"
  | ep_show_post post_id => "/post/" ++ py_str_int post_id
  | ep_add_new_post => "/new-post"
  | ep_edit_post post_id => "/edit-post/" ++ py_str_int post_id
  | ep_delete_post post_id => "/delete/" ++ py_str_int post_id
  | ep_about => "/about"
  | ep_contact => "/contact"
  end.

(** The templates, each with the keyword arguments [render_template] gets. *)
Inductive page : Type :=
| register_html (form : FlaskForm RegisterForm.t) (current_user : identity)
| login_html (form : FlaskForm LoginForm.t) (current_user : identity)
| index_html (all_posts : list BlogPost.t) (current_user : identity)
| post_html (post : BlogPost.t) (current_user : identity)
    (form : FlaskForm CommentForm.t) (gravatar_link : string)
| make_post_html (form : FlaskForm CreatePostForm.t) (is_edit : bool)
    (current_user : identity)
| about_html (current_user : identity)
| contact_html (form : FlaskForm ContactForm.t) (current_user : identity)
    (msg_sent : bool).

Inductive response : Type :=
| Rendered (p : page)
| Redirect (location : string).

(** The status line the client sees. *)
Definition status_code (o : outcome response) : Z :=
  match o with
  | Ok (Rendered _) => 200
  | Ok (Redirect _) => 302
  | Aborted status => status
  | Raised _ => 500
  end.

(** ** Flask and Flask-Login *)

(** [flash(message, category)]; the category defaults to ["message"]. *)
Definition flash (message : string) (category : string) : M unit :=
  fun w => (Ok tt, push_flash (category, message) w).

Definition redirect (location : string) : M response := ret (Redirect location).

(** The [user_loader] callback of [app.py]. *)
Definition load_user (user_id : Z) : M User.t :=
  db_get_or_404 User.t (StrKey user_id).

(** Reading the [current_user] proxy: the anonymous user when the session
    holds no user id, the result of [load_user] otherwise. *)
Definition current_user : M identity :=
  fun w =>
    match session_user_id w with
    | None => (Ok AnonymousUserMixin, w)
    | Some user_id => (u <- load_user user_id ;; ret (LoggedIn u)) w
    end.

(** [current_user.id]: the anonymous user object has no such attribute. *)
Definition current_user_id (cu : identity) : M Z :=
  match cu with
  | LoggedIn u => ret (User.id u)
  | AnonymousUserMixin =>
      raise (AttributeError "'AnonymousUserMixin' object has no attribute 'id'")
  end.

(** Assigning [current_user] to a relationship attribute: the ORM takes
    the mapped instance behind the proxy, and the anonymous user object is
    not one. *)
Definition mapped_instance (cu : identity) : M User.t :=
  match cu with
  | LoggedIn u => ret u
  | AnonymousUserMixin =>
      raise (AttributeError
        "'AnonymousUserMixin' object has no attribute '_sa_instance_state'")
  end.

(** [login_user(u)]: [UserMixin.is_active] is always true, so the user id
    is always stored. *)
Definition login_user (u : User.t) : M unit :=
  fun w => (Ok tt, set_session_user_id (Some (User.id u)) w).

(** [logout_user()]: it reads the current user first, which runs
    [load_user], and then drops the user id from the session. *)
Definition logout_user : M unit :=
  current_user ;;
  (fun w => (Ok tt, set_session_user_id None w)).

(** [render_template(name, ..., current_user=current_user)]: Flask-Login's
    context processor reads [current_user] when the template context is
    built. *)
Definition render_template (template : identity -> page) : M response :=
  cu <- current_user ;; ret (Rendered (template cu)).

(** ** Pure helpers of [app.py] *)

Definition gravatar_url (size : Z) (rating : string) (default : string)
    (force_default : bool) : string :=
  "https://www.gravatar.com/avatar/?s=" ++ py_str_int size
    ++ "&d=" ++ default ++ "&r=" ++ rating ++ "&f=" ++ py_str_bool force_default.

(** [gravatar_url()] with every argument at its default. *)
Definition gravatar_url_default : string := gravatar_url 100 "g" "retro" false.

Definition indent24 : string := "                        ".

Definition construct_msg (FROM_EMAIL : option string)
    (name email phone_number msg : string) : string :=
  "Subject: Blog Website Contact " ++ LF
    ++ "From: noreply <" ++ py_str_opt FROM_EMAIL ++ "> " ++ LF ++ LF ++ LF
    ++ indent24 ++ "You got a contact message " ++ LF ++ LF
    ++ indent24 ++ "From: " ++ name ++ " " ++ LF ++ LF
    ++ indent24 ++ "email: " ++ email ++ " " ++ LF ++ LF
    ++ indent24 ++ "phone number: " ++ phone_number ++ " " ++ LF ++ LF
    ++ indent24 ++ "message: " ++ msg.

(** A [datetime.date]. *)
Record pydate : Type := mkDate { year : Z; month : Z; day : Z }.

Definition month_names : list string :=
  [ "January"; "February"; "March"; "April"; "May"; "June"; "July";
    "August"; "September"; "October"; "November"; "December" ].

(** [%B] *)
Definition strftime_B (d : pydate) : string :=
  nth (Z.to_nat (month d - 1)) month_names EmptyString.

(** [%d]: the day of the month on two digits. *)
Definition strftime_d (d : pydate) : string :=
  if day d <? 10 then "0" ++ py_str_int (day d) else py_str_int (day d).

(** [%Y] *)
Definition strftime_Y (d : pydate) : string := py_str_int (year d).

(** [d.strftime("%B %d, %Y")] *)
Definition strftime_B_d_Y (d : pydate) : string :=
  strftime_B d ++ " " ++ strftime_d d ++ ", " ++ strftime_Y d.

(** ** The mail transport *)

(** How the SMTP server answers each call of [send_email]: [None] when the
    call returns, [Some e] when it raises [e]. *)
Record smtp_server : Type := mkSMTP
  { on_connect : string -> option exn;
    on_starttls : option exn;
    on_login : option string -> option string -> option exn;
    on_sendmail : option string -> option string -> string -> option exn;
    on_quit : option exn }.

Definition smtp_call (answer : option exn) : M unit :=
  match answer with
  | None => ret tt
  | Some e => raise e
  end.

(** ** The application *)

Section App.

(** Validators of [forms.py]. *)
Variable RegisterForm_validate : RegisterForm.t -> bool.
Variable LoginForm_validate : LoginForm.t -> bool.
Variable CommentForm_validate : CommentForm.t -> bool.
Variable CreatePostForm_validate : CreatePostForm.t -> bool.
Variable ContactForm_validate : ContactForm.t -> bool.

(** [werkzeug.security]: [generate_password_hash password method salt_length
    entropy], where [entropy] is what the random source yields for the salt,
    and [check_password_hash pwhash password]. *)
Variable generate_password_hash : string -> string -> Z -> string -> string.
Variable check_password_hash : string -> string -> bool.

(** What committing the deletion of a post does to the comment table, which
    the relationship declared in [models.py] decides: the new table, or
    [None] when the storage engine refuses the deletion. *)
Variable on_delete_BlogPost : BlogPost.t -> list Comment.t -> option (list Comment.t).

(** Environment variables read at start-up. *)
Variable FROM_EMAIL : option string.
Variable PASSWORD : option string.
Variable TO_EMAIL : option string.

(** [db.session.delete(post); db.session.commit()] *)
Definition db_delete_commit_BlogPost (post : BlogPost.t) : M unit :=
  fun w =>
    match on_delete_BlogPost post (comments w) with
    | Some comments' =>
        (Ok tt, set_rows comments' (set_rows (table_delete (posts w) (BlogPost.id post)) w))
    | None => (Raised (IntegrityError "FOREIGN KEY constraint failed"), w)
    end.

(** The [with smtplib.SMTP(...)] block: an exception raised by any call
    leaves the block; after [quit()] the exit of the block has nothing left
    to do. *)
Definition send_email (server : smtp_server) (message : string) : M unit :=
  smtp_call (on_connect server "smtp.gmail.com") ;;
  smtp_call (on_starttls server) ;;
  smtp_call (on_login server FROM_EMAIL PASSWORD) ;;
  smtp_call (on_sendmail server FROM_EMAIL TO_EMAIL message) ;;
  smtp_call (on_quit server).

(** The [admin_only] decorator. *)
Definition admin_only {Args : Type} (f : Args -> M response) : Args -> M response :=
  fun args =>
    cu <- current_user ;;
    uid <- current_user_id cu ;;
    if negb (uid =? 1) then abort 403
    else f args.

(** [/register]; [entropy] feeds the salt of this request. *)
Definition register (req : Request RegisterForm.t) (entropy : string) : M response :=
  let form := make_form req RegisterForm.blank in
  if validate_on_submit RegisterForm_validate form then
    user <- db_select_scalar User.t
              (fun u => String.eqb (User.email u) (RegisterForm.email (data form))) ;;
    match user with
    | Some _ =>
        flash "You've already signed up with that email, log in instead!" "message" ;;
        redirect (url_for ep_login)
    | None =>
        let hash_and_salted_password :=
          generate_password_hash (RegisterForm.password (data form))
            "pbkdf2:sha256" 8 entropy in
        new_user <- db_add_commit
                      (fun id => User.mk id (RegisterForm.email (data form))
                                   (RegisterForm.name (data form))
                                   hash_and_salted_password) ;;
        login_user new_user ;;
        redirect (url_for ep_get_all_posts)
    end
  else render_template (register_html form).

(** [/login] *)
Definition login (req : Request LoginForm.t) : M response :=
  let form := make_form req LoginForm.blank in
  if validate_on_submit LoginForm_validate form then
    let password := LoginForm.password (data form) in
    user <- db_select_scalar User.t
              (fun u => String.eqb (User.email u) (LoginForm.email (data form))) ;;
    match user with
    | None =>
        flash "That email does not exist, please try again." "message" ;;
        redirect (url_for ep_login)
    | Some user =>
        if negb (check_password_hash (User.password user) password) then
          flash "Password incorrect, please try again." "message" ;;
          redirect (url_for ep_login)
        else
          login_user user ;;
          redirect (url_for ep_get_all_posts)
    end
  else render_template (login_html form).

(** [/logout] *)
Definition logout : M response :=
  logout_user ;;
  redirect (url_for ep_get_all_posts).

(** [/] *)
Definition get_all_posts : M response :=
  all_posts <- db_select_all BlogPost.t ;;
  render_template (index_html all_posts).

(** [/post/<int:post_id>] *)
Definition show_post (post_id : Z) (req : Request CommentForm.t) : M response :=
  requested_post <- db_get_or_404 BlogPost.t (IntKey post_id) ;;
  let comment_form := make_form req CommentForm.blank in
  let render :=
    let gravatar := gravatar_url_default in
    render_template (fun cu => post_html requested_post cu comment_form gravatar) in
  if validate_on_submit CommentForm_validate comment_form then
    cu <- current_user ;;
    if negb (is_authenticated cu) then
      flash "You need to login or register to comment." "message" ;;
      redirect (url_for ep_login)
    else
      comment_author <- mapped_instance cu ;;
      db_add_commit
        (fun id => Comment.mk id (CommentForm.comment_text (data comment_form))
                     (User.id comment_author) (BlogPost.id requested_post)) ;;
      render
  else render.

(** The body of [/new-post]; [today] is [date.today()] for this request. *)
Definition add_new_post_view (args : Request CreatePostForm.t * pydate) : M response :=
  let (req, today) := args in
  let form := make_form req CreatePostForm.blank in
  if validate_on_submit CreatePostForm_validate form then
    cu <- current_user ;;
    author <- mapped_instance cu ;;
    db_add_commit
      (fun id => BlogPost.mk id (CreatePostForm.title (data form))
                   (CreatePostForm.subtitle (data form))
                   (strftime_B_d_Y today)
                   (CreatePostForm.body (data form))
                   (CreatePostForm.img_url (data form))
                   (User.id author)) ;;
    redirect (url_for ep_get_all_posts)
  else render_template (make_post_html form false).

(** [/new-post], decorated *)
Definition add_new_post : Request CreatePostForm.t * pydate -> M response :=
  admin_only add_new_post_view.

(** [/edit-post/<int:post_id>] *)
Definition edit_post (post_id : Z) (req : Request CreatePostForm.t) : M response :=
  post <- db_get_or_404 BlogPost.t (IntKey post_id) ;;
  let edit_form :=
    make_form req
      (CreatePostForm.mk (BlogPost.title post) (BlogPost.subtitle post)
         (BlogPost.img_url post) (BlogPost.body post)) in
  if validate_on_submit CreatePostForm_validate edit_form then
    cu <- current_user ;;
    author <- mapped_instance cu ;;
    db_commit_dirty
      (BlogPost.mk (BlogPost.id post)
         (CreatePostForm.title (data edit_form))
         (CreatePostForm.subtitle (data edit_form))
         (BlogPost.date post)
         (CreatePostForm.body (data edit_form))
         (CreatePostForm.img_url (data edit_form))
         (User.id author)) ;;
    redirect (url_for (ep_show_post (BlogPost.id post)))
  else render_template (make_post_html edit_form true).

(** The body of [/delete/<int:post_id>] *)
Definition delete_post_view (post_id : Z) : M response :=
  post_to_delete <- db_get_or_404 BlogPost.t (IntKey post_id) ;;
  db_delete_commit_BlogPost post_to_delete ;;
  redirect (url_for ep_get_all_posts).

(** [/delete/<int:post_id>], decorated *)
Definition delete_post : Z -> M response := admin_only delete_post_view.

(** [/about] *)
Definition about : M response := render_template about_html.

(** [/contact]; [server] is the SMTP server's behaviour for this request. *)
Definition contact (req : Request ContactForm.t) (server : smtp_server) : M response :=
  let form := make_form req ContactForm.blank in
  if validate_on_submit ContactForm_validate form then
    let name := ContactForm.name (data form) in
    let email := ContactForm.email (data form) in
    let phone := ContactForm.phone_number (data form) in
    let message := ContactForm.message (data form) in
    let formatted_message := construct_msg FROM_EMAIL name email phone message in
    try_except
      (send_email server formatted_message ;;
       flash "Your message has been sent successfully!" "success")
      (flash "An unexpected error occurred. Please try again later" "danger") ;;
    redirect (url_for ep_contact)
  else render_template (fun cu => contact_html form cu false).

End App.

(** ** Routing *)

(** A request as Flask routes it: the view it reaches, with the URL
    parameters, the form and what the environment supplies for it. The
    rules of [/logout], [/], [/delete/<int:post_id>] and [/about] list no
    methods, so only a GET reaches those views. *)
Inductive request : Type :=
| req_register (req : Request RegisterForm.t) (entropy : string)
| req_login (req : Request LoginForm.t)
| req_logout
| req_get_all_posts
| req_show_post (post_id : Z) (req : Request CommentForm.t)
| req_add_new_post (req : Request CreatePostForm.t) (today : pydate)
| req_edit_post (post_id : Z) (req : Request CreatePostForm.t)
| req_delete_post (post_id : Z)
| req_about
| req_contact (req : Request ContactForm.t) (server : smtp_server).

(** The request goes to [/new-post]. *)
Definition is_new_post_request (rq : request) : bool :=
  match rq with req_add_new_post _ _ => true | _ => false end.

Section Routing.
Variable RegisterForm_validate : RegisterForm.t -> bool.
Variable LoginForm_validate : LoginForm.t -> bool.
Variable CommentForm_validate : CommentForm.t -> bool.
Variable CreatePostForm_validate : CreatePostForm.t -> bool.
Variable ContactForm_validate : ContactForm.t -> bool.
Variable generate_password_hash : string -> string -> Z -> string -> string.
Variable check_password_hash : string -> string -> bool.
Variable on_delete_BlogPost : BlogPost.t -> list Comment.t -> option (list Comment.t).
Variable FROM_EMAIL : option string.
Variable PASSWORD : option string.
Variable TO_EMAIL : option string.

(** The [@app.route] table. *)
Definition dispatch (rq : request) : M response :=
  match rq with
  | req_register req entropy =>
      register RegisterForm_validate generate_password_hash req entropy
  | req_login req => login LoginForm_validate check_password_hash req
  | req_logout => logout
  | req_get_all_posts => get_all_posts
  | req_show_post post_id req => show_post CommentForm_validate post_id req
  | req_add_new_post req today => add_new_post CreatePostForm_validate (req, today)
  | req_edit_post post_id req => edit_post CreatePostForm_validate post_id req
  | req_delete_post post_id => delete_post on_delete_BlogPost post_id
  | req_about => about
  | req_contact req server =>
      contact ContactForm_validate FROM_EMAIL PASSWORD TO_EMAIL req server
  end.

(** The worlds the application can be in after [w0]: requests are served
    one after the other, and between two of them the session may be that
    of another client (any user id, any queue of flashed messages). *)
Inductive reachable (w0 : world) : world -> Prop :=
| reach_start : reachable w0 w0
| reach_request (w : world) (rq : request) :
    reachable w0 w -> reachable w0 (snd (dispatch rq w))
| reach_client (w : world) (sid : option Z) (fl : list (string * string)) :
    reachable w0 w ->
    reachable w0 (mkWorld (users w) (posts w) (comments w) sid fl).

(** The same, with no request to [/new-post] among those served. *)
Inductive reachable_without_new_post (w0 : world) : world -> Prop :=
| reach0_start : reachable_without_new_post w0 w0
| reach0_request (w : world) (rq : request) :
    is_new_post_request rq = false ->
    reachable_without_new_post w0 w ->
    reachable_without_new_post w0 (snd (dispatch rq w))
| reach0_client (w : world) (sid : option Z) (fl : list (string * string)) :
    reachable_without_new_post w0 w ->
    reachable_without_new_post w0 (mkWorld (users w) (posts w) (comments w) sid fl).

End Routing.

(** The request is made by the admin: the session resolves to the user
    whose id is 1. *)
Definition admin_session (w : world) : bool :=
  match fst (current_user w) with
  | Ok (LoggedIn u) => User.id u =? 1
  | _ => false
  end.

Definition is_register (rq : request) : bool :=
  match rq with req_register _ _ => true | _ => false end.

Definition writes_session (rq : request) : bool :=
  match rq with
  | req_register _ _ | req_login _ | req_logout => true
  | _ => false
  end.

(** ** Integrity conditions on the database *)

(** No two users share an email ([User.email] is declared unique). *)
Definition emails_unique (w : world) : Prop :=
  NoDup (map User.email (users w)).

(** Primary keys are distinct in each table. *)
Definition keys_distinct (w : world) : Prop :=
  NoDup (map User.id (users w))
  /\ NoDup (map BlogPost.id (posts w))
  /\ NoDup (map Comment.id (comments w)).

(** Every post's author is a stored user. *)
Definition post_authors_stored (w : world) : Prop :=
  forall p, In p (posts w) ->
    exists u, In u (users w) /\ User.id u = BlogPost.author p.

(** Every comment's author is a stored user. *)
Definition comment_authors_stored (w : world) : Prop :=
  forall c, In c (comments w) ->
    exists u, In u (users w) /\ User.id u = Comment.comment_author c.

(** Deleting a post removes some comments (possibly none) and changes no
    other. *)
Definition deletes_by_filtering
    (on_delete : BlogPost.t -> list Comment.t -> option (list Comment.t)) : Prop :=
  forall post cs cs', on_delete post cs = Some cs' ->
    exists keep, cs' = filter keep cs.

(** ** Sample instances, for running the handlers on concrete requests *)

Definition accept_all {F : Type} (_ : F) : bool := true.

Definition sample_generate_password_hash (password method : string)
    (salt_length : Z) (entropy : string) : string :=
  method ++ "$" ++ entropy ++ "$" ++ "digest(" ++ entropy ++ password ++ ")".

Definition sample_salt : string := "k3Yq81Zp".

Definition sample_check_password_hash (pwhash password : string) : bool :=
  String.eqb pwhash
    (sample_generate_password_hash password "pbkdf2:sha256" 8 sample_salt).


Definition comments_cascade (post : BlogPost.t) (cs : list Comment.t) : option (list Comment.t) :=
  Some (filter (fun c => negb (Comment.parent_post c =? BlogPost.id post)) cs).

Definition comments_restrict (post : BlogPost.t) (cs : list Comment.t) : option (list Comment.t) :=
  if existsb (fun c => Comment.parent_post c =? BlogPost.id post) cs then None
  else Some cs.

Definition sample_admin : User.t :=
  User.mk 1 "admin@example.com" "Admin"
    (sample_generate_password_hash "s3cret" "pbkdf2:sha256" 8 sample_salt).

Definition sample_reader : User.t :=
  User.mk 2 "reader@example.com" "Reader"
    (sample_generate_password_hash "hunter2" "pbkdf2:sha256" 8 sample_salt).

Definition sample_post : BlogPost.t :=
  BlogPost.mk 1 "T" "first post" "March 05, 2024" "<p>hello</p>"
    "https://example.com/cover.png" 1.

Definition sample_comment : Comment.t := Comment.mk 1 "hi" 2 1.

(** A database with two users, one post and one comment, seen by a client
    whose session holds [sid]. *)
Definition sample_world (sid : option Z) : world :=
  mkWorld [sample_admin; sample_reader] [sample_post] [sample_comment] sid [].

(** A mail server that accepts everything, and one that refuses the login. *)
Definition smtp_accepts : smtp_server :=
  mkSMTP (fun _ => None) None (fun _ _ => None) (fun _ _ _ => None) None.

Definition smtp_refuses_login : smtp_server :=
  mkSMTP (fun _ => None) None
    (fun _ _ => Some (SMTPException "535 Username and Password not accepted"))
    (fun _ _ _ => None) None.

Definition sample_date : pydate := mkDate 2024 3 5.

Definition sample_FROM_EMAIL : option string := Some "blog@example.com".
Definition sample_PASSWORD : option string := Some "app-token".
Definition sample_TO_EMAIL : option string := Some "owner@example.com".

(** A hash without salt, and the check that goes with it. *)
Definition unsalted_generate_password_hash (password method : string)
    (salt_length : Z) (entropy : string) : string :=
  method ++ "$" ++ "digest(" ++ password ++ ")".

Definition unsalted_check_password_hash (pwhash password : string) : bool :=
  String.eqb pwhash ("pbkdf2:sha256" ++ "$" ++ "digest(" ++ password ++ ")").

(** The application configured with the sample parameters. *)
Definition sample_dispatch : request -> M response :=
  dispatch accept_all accept_all accept_all accept_all accept_all
    sample_generate_password_hash sample_check_password_hash comments_cascade
    sample_FROM_EMAIL sample_PASSWORD sample_TO_EMAIL.

Definition sample_registration : Request RegisterForm.t :=
  mkRequest POST (RegisterForm.mk "new@example.com" "New" "pw").

Definition sample_edit : Request CreatePostForm.t :=
  mkRequest POST (CreatePostForm.mk "T2" "s2" "https://example.com/e.png" "<p>e</p>").

(** * Properties *)

(** ** Tables *)

Section TableFacts.
Context {A : Type} `{Model A}.

Lemma pk_le_fold_max (t : list A) (r : A) :
  In r t -> pk r <= fold_right (fun r acc => Z.max (pk r) acc) 0 t.
Proof.
  induction t as [|x t IH]; simpl; intros Hin.
  - contradiction.
  - destruct Hin as [->|Hin].
    + apply Z.le_max_l.
    + specialize (IH Hin). lia.
Qed.

Lemma table_get_pk (t : list A) (k : Z) (r : A) :
  table_get t k = Some r -> pk r = k.
Proof.
  unfold table_get. intros Hf.
  apply find_some in Hf. destruct Hf as [_ Hk].
  now apply Z.eqb_eq.
Qed.

Lemma table_get_In (t : list A) (k : Z) (r : A) :
  table_get t k = Some r -> In r t.
Proof. unfold table_get. intros Hf. now apply find_some in Hf. Qed.

Lemma table_get_None (t : list A) (k : Z) :
  table_get t k = None <-> (forall r, In r t -> pk r <> k).
Proof.
  unfold table_get. split.
  - intros Hf r Hin Hk.
    pose proof (find_none _ _ Hf r Hin) as Hneq. simpl in Hneq.
    apply Z.eqb_neq in Hneq. contradiction.
  - intros Hall. induction t as [|x t IH]; simpl; [reflexivity|].
    destruct (pk x =? k) eqn:E.
    + apply Z.eqb_eq in E. exfalso. apply (Hall x); [now left | assumption].
    + apply IH. intros r Hin. apply Hall. now right.
Qed.

(** The key of the next row is not in use. *)
Lemma next_pk_fresh (t : list A) : table_get t (next_pk t) = None.
Proof.
  apply table_get_None. intros r Hin Hk.
  apply pk_le_fold_max in Hin. unfold next_pk in Hk. lia.
Qed.

Lemma table_get_app (t : list A) (r : A) (k : Z) :
  table_get (t ++ [r]) k =
    match table_get t k with
    | Some x => Some x
    | None => if pk r =? k then Some r else None
    end.
Proof.
  unfold table_get. induction t as [|x t IH]; simpl.
  - reflexivity.
  - destruct (pk x =? k); [reflexivity | exact IH].
Qed.


Lemma table_get_delete_ne (t : list A) (k k' : Z) :
  k' <> k -> table_get (table_delete t k) k' = table_get t k'.
Proof.
  intros Hne. unfold table_get, table_delete.
  induction t as [|x t IH]; simpl; [reflexivity|].
  destruct (pk x =? k) eqn:E; simpl.
  - apply Z.eqb_eq in E.
    assert ((pk x =? k') = false) as -> by (apply Z.eqb_neq; lia).
    exact IH.
  - destruct (pk x =? k'); [reflexivity | exact IH].
Qed.

Lemma table_get_update_eq (t : list A) (r r' : A) :
  table_get t (pk r') = Some r ->
  table_get (table_update t r') (pk r') = Some r'.
Proof.
  unfold table_get, table_update.
  induction t as [|x t IH]; simpl; [discriminate|].
  destruct (pk x =? pk r') eqn:E.
  - intros _. now rewrite Z.eqb_refl.
  - rewrite E. exact IH.
Qed.

Lemma table_get_update_ne (t : list A) (r' : A) (k : Z) :
  k <> pk r' -> table_get (table_update t r') k = table_get t k.
Proof.
  intros Hne. unfold table_get, table_update.
  induction t as [|x t IH]; simpl; [reflexivity|].
  destruct (pk x =? pk r') eqn:E.
  - apply Z.eqb_eq in E.
    assert ((pk r' =? k) = false) as -> by (apply Z.eqb_neq; lia).
    assert ((pk x =? k) = false) as -> by (apply Z.eqb_neq; lia).
    exact IH.
  - destruct (pk x =? k); [reflexivity | exact IH].
Qed.

Lemma table_update_length (t : list A) (r' : A) :
  length (table_update t r') = length t.
Proof. unfold table_update. apply length_map. Qed.

Lemma table_update_other (t : list A) (r' x : A) :
  In x t -> pk x <> pk r' -> In x (table_update t r').
Proof.
  intros Hin Hne. unfold table_update. apply in_map_iff.
  exists x. split; [|assumption].
  now apply Z.eqb_neq in Hne as ->.
Qed.



(** Primary keys stay distinct under the three ways a table is written. *)
Lemma table_update_keys (t : list A) (r' : A) :
  map pk (table_update t r') = map pk t.
Proof.
  unfold table_update. rewrite map_map. apply map_ext_in.
  intros x _. destruct (pk x =? pk r') eqn:E; [|reflexivity].
  apply Z.eqb_eq in E. now symmetry.
Qed.

Lemma table_delete_keys_distinct (t : list A) (k : Z) :
  NoDup (map pk t) -> NoDup (map pk (table_delete t k)).
Proof.
  unfold table_delete. induction t as [|x t IH]; simpl; intros Hnd.
  - constructor.
  - inversion Hnd as [|? ? Hnotin Hnd']; subst.
    destruct (negb (pk x =? k)); simpl; [|now apply IH].
    constructor; [|now apply IH].
    intros Hin. apply Hnotin.
    apply in_map_iff in Hin. destruct Hin as [y [Hy Hin]].
    apply filter_In in Hin. apply in_map_iff. exists y. tauto.
Qed.

Lemma table_insert_keys_distinct (t : list A) (r : A) :
  pk r = next_pk t -> NoDup (map pk t) -> NoDup (map pk (t ++ [r])).
Proof.
  intros Hk Hnd. rewrite map_app. simpl.
  apply NoDup_app; [exact Hnd | repeat constructor; intros [] |].
  intros a Ha [<-|[]].
  apply in_map_iff in Ha. destruct Ha as [y [Hy Hin]].
  apply pk_le_fold_max in Hin. unfold next_pk in Hk. lia.
Qed.

End TableFacts.

(** [scalar()] finds nothing exactly when no row matches. *)
Lemma find_email_None (e : string) (l : list User.t) :
  find (fun u => String.eqb (User.email u) e) l = None <->
  (forall u, In u l -> User.email u <> e).
Proof.
  split.
  - intros Hf u Hin He.
    pose proof (find_none _ _ Hf u Hin) as Hneq. simpl in Hneq.
    apply String.eqb_neq in Hneq. contradiction.
  - intros Hall. induction l as [|x l IH]; simpl; [reflexivity|].
    destruct (String.eqb (User.email x) e) eqn:E.
    + apply String.eqb_eq in E. exfalso. apply (Hall x); [now left | assumption].
    + apply IH. intros u Hin. apply Hall. now right.
Qed.

Lemma find_email_Some (e : string) (l : list User.t) :
  (exists u, In u l /\ User.email u = e) ->
  exists u, find (fun u => String.eqb (User.email u) e) l = Some u.
Proof.
  intros [u [Hin He]].
  destruct (find (fun u => String.eqb (User.email u) e) l) as [x|] eqn:Hf.
  - now exists x.
  - exfalso. exact (proj1 (find_email_None e l) Hf u Hin He).
Qed.

(** ** Flask-Login *)

(** Reading [current_user] never changes the world, and depends only on
    the session and the user table. *)
Lemma current_user_spec (w : world) :
  current_user w =
    (match session_user_id w with
     | None => Ok AnonymousUserMixin
     | Some user_id =>
         match table_get (users w) user_id with
         | Some u => Ok (LoggedIn u)
         | None => Aborted 404
         end
     end, w).
Proof.
  unfold current_user, load_user, db_get_or_404, bind, ret. simpl.
  destruct (session_user_id w) as [uid|]; [|reflexivity].
  destruct (table_get (users w) uid); reflexivity.
Qed.

Lemma current_user_frame (w w' : world) :
  users w' = users w -> session_user_id w' = session_user_id w ->
  fst (current_user w') = fst (current_user w).
Proof.
  intros Hu Hs. rewrite !current_user_spec. simpl. now rewrite Hu, Hs.
Qed.

Lemma current_user_world (w : world) : snd (current_user w) = w.
Proof. now rewrite current_user_spec. Qed.

(** ** The admin guard *)

Section Guard.
Context {Args : Type} (f : Args -> M response) (args : Args).

(** A logged-in user other than the admin is refused, whatever [f] is. *)
Lemma admin_only_forbidden (w : world) (u : User.t) :
  current_user w = (Ok (LoggedIn u), w) -> User.id u <> 1 ->
  admin_only f args w = (Aborted 403, w).
Proof.
  intros Hcu Hid. unfold admin_only, bind. rewrite Hcu. simpl.
  apply Z.eqb_neq in Hid. now rewrite Hid.
Qed.

(** The admin reaches the wrapped view. *)
Lemma admin_only_admin (w : world) (u : User.t) :
  current_user w = (Ok (LoggedIn u), w) -> User.id u = 1 ->
  admin_only f args w = f args w.
Proof.
  intros Hcu Hid. unfold admin_only, bind. rewrite Hcu. simpl.
  now rewrite Hid.
Qed.

(** A session whose user is gone is answered by [load_user]. *)
Lemma admin_only_stale_session (w : world) (uid : Z) :
  session_user_id w = Some uid -> table_get (users w) uid = None ->
  admin_only f args w = (Aborted 404, w).
Proof.
  intros Hs Hu. unfold admin_only, bind.
  rewrite current_user_spec, Hs, Hu. reflexivity.
Qed.

End Guard.

(** C1 (the anonymous case, where the code departs from the claim): a
    request without a logged-in user to a route wrapped by [admin_only]
    does not end with [abort(403)]. Reading [current_user.id] raises
    [AttributeError], the wrapped view is not reached (the result is the
    same for every [f]), and the client gets status 500. *)
Theorem admin_only_anonymous_raises :
  forall (Args : Type) (f : Args -> M response) (args : Args)
         (us : list User.t) (ps : list BlogPost.t) (cs : list Comment.t)
         (fl : list (string * string)),
    let w := mkWorld us ps cs None fl in
    admin_only f args w =
      (Raised (AttributeError "'AnonymousUserMixin' object has no attribute 'id'"), w)
    /\ status_code (fst (admin_only f args w)) = 500
    /\ status_code (fst (admin_only f args w)) <> 403.
Proof.
  intros Args f args us ps cs fl w.
  assert (admin_only f args w =
    (Raised (AttributeError "'AnonymousUserMixin' object has no attribute 'id'"), w)) as E
    by reflexivity.
  rewrite E. simpl. repeat split. lia.
Qed.

(** ** Registration and login *)

Section Accounts.
Variable RegisterForm_validate : RegisterForm.t -> bool.
Variable LoginForm_validate : LoginForm.t -> bool.
Variable generate_password_hash : string -> string -> Z -> string -> string.
Variable check_password_hash : string -> string -> bool.

Local Abbreviation register_ := (register RegisterForm_validate generate_password_hash).
Local Abbreviation login_ := (login LoginForm_validate check_password_hash).

(** C2: a valid registration whose email is already in the user table
    leaves the table as it is, flashes the warning and redirects to the
    login page; otherwise one [User] is added whose password column is the
    output of [generate_password_hash] on the submitted password, the
    session is bound to that user (the next read of [current_user] yields
    it), and the response redirects to the post listing. *)
Theorem register_valid_submission :
  forall (req : Request RegisterForm.t) (entropy : string) (w : world),
    method req = POST ->
    RegisterForm_validate (formdata req) = true ->
    ((exists u, In u (users w) /\ User.email u = RegisterForm.email (formdata req)) ->
       register_ req entropy w =
         (Ok (Redirect (url_for ep_login)),
          push_flash ("message",
                      "You've already signed up with that email, log in instead!") w)
       /\ users (snd (register_ req entropy w)) = users w)
    /\
    ((forall u, In u (users w) -> User.email u <> RegisterForm.email (formdata req)) ->
       let new_user :=
         User.mk (next_pk (users w))
           (RegisterForm.email (formdata req)) (RegisterForm.name (formdata req))
           (generate_password_hash (RegisterForm.password (formdata req))
              "pbkdf2:sha256" 8 entropy) in
       let w' := set_session_user_id (Some (User.id new_user))
                   (set_rows (users w ++ [new_user]) w) in
       register_ req entropy w = (Ok (Redirect (url_for ep_get_all_posts)), w')
       /\ users w' = (users w ++ [new_user])%list
       /\ session_user_id w' = Some (User.id new_user)
       /\ current_user w' = (Ok (LoggedIn new_user), w')).
Proof.
  intros req entropy w Hm Hv.
  unfold register, make_form, validate_on_submit. rewrite Hm. simpl. rewrite Hv.
  unfold bind, db_select_scalar. simpl.
  split.
  - intros Hex. apply find_email_Some in Hex. destruct Hex as [x Hx].
    rewrite Hx. simpl. split; reflexivity.
  - intros Hnone. apply find_email_None in Hnone. rewrite Hnone.
    repeat split.
    rewrite current_user_spec. simpl.
    rewrite (table_get_app (users w)).
    rewrite (next_pk_fresh (users w)). simpl.
    now rewrite Z.eqb_refl.
Qed.

(** C3: a valid login submission with an email no user has flashes "That
    email does not exist, please try again." and redirects to the login
    page; with a password that does not match the stored hash it flashes
    "Password incorrect, please try again." and redirects to the login
    page; in both cases the session keeps the user id it had. Otherwise
    the session is bound to the user found and the response redirects to
    the post listing. *)
Theorem login_valid_submission :
  forall (req : Request LoginForm.t) (w : world),
    method req = POST ->
    LoginForm_validate (formdata req) = true ->
    ((forall u, In u (users w) -> User.email u <> LoginForm.email (formdata req)) ->
       login_ req w =
         (Ok (Redirect (url_for ep_login)),
          push_flash ("message", "That email does not exist, please try again.") w)
       /\ session_user_id (snd (login_ req w)) = session_user_id w)
    /\
    (forall user,
       find (fun u => String.eqb (User.email u) (LoginForm.email (formdata req)))
            (users w) = Some user ->
       (check_password_hash (User.password user) (LoginForm.password (formdata req)) = false ->
          login_ req w =
            (Ok (Redirect (url_for ep_login)),
             push_flash ("message", "Password incorrect, please try again.") w)
          /\ session_user_id (snd (login_ req w)) = session_user_id w)
       /\
       (check_password_hash (User.password user) (LoginForm.password (formdata req)) = true ->
          login_ req w =
            (Ok (Redirect (url_for ep_get_all_posts)),
             set_session_user_id (Some (User.id user)) w)
          /\ session_user_id (snd (login_ req w)) = Some (User.id user))).
Proof.
  intros req w Hm Hv.
  unfold login, make_form, validate_on_submit. rewrite Hm. simpl. rewrite Hv.
  unfold bind, db_select_scalar. simpl.
  split.
  - intros Hnone. apply find_email_None in Hnone. rewrite Hnone.
    split; reflexivity.
  - intros user Hfind. rewrite Hfind. split; intros Hc; rewrite Hc; split; reflexivity.
Qed.

End Accounts.

Lemma register_valid_submission_witness :
  register accept_all sample_generate_password_hash
    (mkRequest POST (RegisterForm.mk "reader@example.com" "Again" "pw"))
    sample_salt (sample_world None)
  = (Ok (Redirect "/login"),
     push_flash ("message", "You've already signed up with that email, log in instead!")
       (sample_world None))
  /\
  register accept_all sample_generate_password_hash
    (mkRequest POST (RegisterForm.mk "new@example.com" "New" "pw"))
    sample_salt (sample_world None)
  = (Ok (Redirect "/"),
     mkWorld
       [sample_admin; sample_reader;
        User.mk 3 "new@example.com" "New"
          (sample_generate_password_hash "pw" "pbkdf2:sha256" 8 sample_salt)]
       [sample_post] [sample_comment] (Some 3) []).
Proof.
  split.
  - refine (proj1 (proj1 (register_valid_submission accept_all
              sample_generate_password_hash
              (mkRequest POST (RegisterForm.mk "reader@example.com" "Again" "pw"))
              sample_salt (sample_world None) eq_refl eq_refl) _)).
    exists sample_reader. split; [right; left; reflexivity | reflexivity].
  - refine (proj1 (proj2 (register_valid_submission accept_all
              sample_generate_password_hash
              (mkRequest POST (RegisterForm.mk "new@example.com" "New" "pw"))
              sample_salt (sample_world None) eq_refl eq_refl) _)).
    apply find_email_None. reflexivity.
Defined.

Lemma login_valid_submission_witness :
  login accept_all sample_check_password_hash
    (mkRequest POST (LoginForm.mk "nobody@example.com" "hunter2")) (sample_world None)
  = (Ok (Redirect "/login"),
     push_flash ("message", "That email does not exist, please try again.")
       (sample_world None))
  /\
  login accept_all sample_check_password_hash
    (mkRequest POST (LoginForm.mk "reader@example.com" "wrong")) (sample_world None)
  = (Ok (Redirect "/login"),
     push_flash ("message", "Password incorrect, please try again.")
       (sample_world None))
  /\
  login accept_all sample_check_password_hash
    (mkRequest POST (LoginForm.mk "reader@example.com" "hunter2")) (sample_world None)
  = (Ok (Redirect "/"), sample_world (Some 2)).
Proof.
  split; [|split].
  - refine (proj1 (proj1 (login_valid_submission accept_all sample_check_password_hash
              (mkRequest POST (LoginForm.mk "nobody@example.com" "hunter2"))
              (sample_world None) eq_refl eq_refl) _)).
    apply find_email_None. reflexivity.
  - exact (proj1 (proj1 (proj2 (login_valid_submission accept_all
              sample_check_password_hash
              (mkRequest POST (LoginForm.mk "reader@example.com" "wrong"))
              (sample_world None) eq_refl eq_refl) sample_reader eq_refl) eq_refl)).
  - exact (proj1 (proj2 (proj2 (login_valid_submission accept_all
              sample_check_password_hash
              (mkRequest POST (LoginForm.mk "reader@example.com" "hunter2"))
              (sample_world None) eq_refl eq_refl) sample_reader eq_refl) eq_refl)).
Defined.

(** ** The date format *)

Lemma In_month_names (m : Z) :
  1 <= m <= 12 -> In (nth (Z.to_nat (m - 1)) month_names EmptyString) month_names.
Proof.
  intros Hm. apply nth_In. simpl. lia.
Qed.

Lemma range_check (P : Z -> bool) (lo n : Z) :
  forallb P (map (fun i => lo + Z.of_nat i) (seq 0 (Z.to_nat n))) = true ->
  forall z, lo <= z < lo + n -> P z = true.
Proof.
  intros Hall z Hz. rewrite forallb_forall in Hall. apply Hall.
  apply in_map_iff. exists (Z.to_nat (z - lo)). split; [lia|].
  apply in_seq. lia.
Qed.

Lemma strftime_d_length (d : pydate) :
  1 <= day d <= 31 -> String.length (strftime_d d) = 2%nat.
Proof.
  intros Hd.
  pose proof (range_check
    (fun z => Nat.eqb (String.length (strftime_d (mkDate 0 0 z))) 2) 1 31 eq_refl
    (day d)) as Hc.
  simpl in Hc. specialize (Hc ltac:(lia)).
  apply Nat.eqb_eq in Hc. exact Hc.
Qed.

Lemma strftime_Y_length (d : pydate) :
  1000 <= year d <= 9999 -> String.length (strftime_Y d) = 4%nat.
Proof.
  intros Hy.
  assert (forallb (fun z => Nat.eqb (String.length (py_str_int z)) 4)
            (map (fun i => 1000 + Z.of_nat i) (seq 0 (Z.to_nat 9000))) = true) as Hall
    by (vm_compute; reflexivity).
  pose proof (range_check _ 1000 9000 Hall (year d) ltac:(lia)) as Hc.
  apply Nat.eqb_eq in Hc. exact Hc.
Qed.

(** For a calendar date with a four-digit year, ["%B %d, %Y"] is a month
    name, a space, two digits, a comma and a space, four digits. *)
Lemma strftime_B_d_Y_shape (d : pydate) :
  1 <= month d <= 12 -> 1 <= day d <= 31 -> 1000 <= year d <= 9999 ->
  exists mon dd yyyy,
    strftime_B_d_Y d = mon ++ " " ++ dd ++ ", " ++ yyyy
    /\ In mon month_names
    /\ String.length dd = 2%nat /\ String.length yyyy = 4%nat.
Proof.
  intros Hm Hd Hy.
  exists (strftime_B d), (strftime_d d), (strftime_Y d).
  split; [reflexivity|]. split; [|split].
  - now apply In_month_names.
  - now apply strftime_d_length.
  - now apply strftime_Y_length.
Qed.

Example strftime_sample : strftime_B_d_Y sample_date = "March 05, 2024".
Proof. reflexivity. Qed.

Example strftime_two_digit_day : strftime_B_d_Y (mkDate 2023 12 25) = "December 25, 2023".
Proof. reflexivity. Qed.

(** ** Posts and comments *)

Lemma gravatar_url_default_value :
  gravatar_url_default = "https://www.gravatar.com/avatar/?s=100&d=retro&r=g&f=False".
Proof. reflexivity. Qed.

Lemma render_template_page (template : identity -> page) (w : world) (p : page) :
  fst (render_template template w) = Ok (Rendered p) ->
  exists cu, p = template cu.
Proof.
  unfold render_template, bind, ret. rewrite current_user_spec.
  destruct (session_user_id w) as [uid|]; simpl.
  - destruct (table_get (users w) uid) as [u|]; simpl; intros Hp.
    + exists (LoggedIn u). congruence.
    + discriminate.
  - intros Hp. exists AnonymousUserMixin. congruence.
Qed.

Section Posts.
Variable CommentForm_validate : CommentForm.t -> bool.
Variable CreatePostForm_validate : CreatePostForm.t -> bool.
Variable on_delete_BlogPost : BlogPost.t -> list Comment.t -> option (list Comment.t).

Local Abbreviation show_post_ := (show_post CommentForm_validate).
Local Abbreviation add_new_post_ := (add_new_post CreatePostForm_validate).
Local Abbreviation edit_post_ := (edit_post CreatePostForm_validate).
Local Abbreviation delete_post_ := (delete_post on_delete_BlogPost).


(** C4: a valid comment POSTed to the page of an existing post. Without a
    user id in the session the comment table is unchanged, the login prompt
    is flashed and the response redirects to the login page. With a
    logged-in user exactly one comment is appended, whose author is that
    user and whose parent is that post, and the post page is rendered. *)
Theorem show_post_comment_submission :
  forall (post_id : Z) (req : Request CommentForm.t) (w : world) (post : BlogPost.t),
    method req = POST ->
    CommentForm_validate (formdata req) = true ->
    table_get (posts w) post_id = Some post ->
    (session_user_id w = None ->
       show_post_ post_id req w =
         (Ok (Redirect (url_for ep_login)),
          push_flash ("message", "You need to login or register to comment.") w)
       /\ comments (snd (show_post_ post_id req w)) = comments w)
    /\
    (forall u, current_user w = (Ok (LoggedIn u), w) ->
       let new_comment :=
         Comment.mk (next_pk (comments w)) (CommentForm.comment_text (formdata req))
           (User.id u) post_id in
       show_post_ post_id req w =
         (Ok (Rendered (post_html post (LoggedIn u) (mkForm true (formdata req))
                          gravatar_url_default)),
          set_rows (comments w ++ [new_comment]) w)
       /\ comments (snd (show_post_ post_id req w)) = (comments w ++ [new_comment])%list
       /\ length (comments (snd (show_post_ post_id req w))) = S (length (comments w))).
Proof.
  intros post_id req w post Hm Hv Hpost.
  pose proof (table_get_pk _ _ _ Hpost) as Hpk. simpl in Hpk.
  unfold show_post, bind, db_get_or_404. simpl. rewrite Hpost.
  unfold make_form, validate_on_submit. rewrite Hm. simpl. rewrite Hv.
  split.
  - intros Hs. rewrite current_user_spec, Hs. simpl. split; reflexivity.
  - intros u Hcu. rewrite Hcu. simpl.
    unfold render_template, bind, ret.
    rewrite current_user_spec in Hcu. injection Hcu as Hcu.
    rewrite current_user_spec. simpl. rewrite Hcu, Hpk. simpl.
    repeat split. rewrite length_app. simpl. lia.
Qed.

(** C9: whenever [show_post] renders the post page, the avatar link passed
    to the template is the same literal, built by [gravatar_url] from its
    default arguments alone: the path ends at [/avatar/] and no hash of an
    email follows it. *)
Theorem show_post_gravatar_fixed :
  forall (post_id : Z) (req : Request CommentForm.t) (w : world) (p : page),
    fst (show_post_ post_id req w) = Ok (Rendered p) ->
    exists post cu form,
      p = post_html post cu form
            "https://www.gravatar.com/avatar/?s=100&d=retro&r=g&f=False"
      /\ gravatar_url 100 "g" "retro" false =
           "https://www.gravatar.com/avatar/?s=100&d=retro&r=g&f=False".
Proof.
  intros post_id req w p. unfold show_post, bind, db_get_or_404.
  cbn [rows BlogPost_Model key_value].
  destruct (table_get (posts w) post_id) as [post|];
    [|destruct (in_int64 post_id); discriminate].
  set (form := make_form req CommentForm.blank).
  assert (forall w0, fst (render_template
            (fun cu => post_html post cu form gravatar_url_default) w0)
            = Ok (Rendered p) ->
          exists post0 cu form0,
            p = post_html post0 cu form0
                  "https://www.gravatar.com/avatar/?s=100&d=retro&r=g&f=False"
            /\ gravatar_url 100 "g" "retro" false =
                 "https://www.gravatar.com/avatar/?s=100&d=retro&r=g&f=False") as Hrender.
  { intros w0 Hp. apply render_template_page in Hp. destruct Hp as [cu ->].
    exists post, cu, form. split; reflexivity. }
  destruct (validate_on_submit CommentForm_validate form); [|apply Hrender].
  rewrite current_user_spec.
  destruct (session_user_id w) as [uid|]; simpl.
  - destruct (table_get (users w) uid) as [u|]; simpl; [apply Hrender | discriminate].
  - discriminate.
Qed.

(** C6: a valid create-post submission by the admin appends one post whose
    author is the admin's id and whose date is [date.today()] formatted
    with ["%B %d, %Y"], and redirects to the listing, which is not the
    page of the new post. *)
Theorem add_new_post_valid_submission :
  forall (req : Request CreatePostForm.t) (today : pydate) (w : world) (admin : User.t),
    current_user w = (Ok (LoggedIn admin), w) -> User.id admin = 1 ->
    method req = POST ->
    CreatePostForm_validate (formdata req) = true ->
    let new_post :=
      BlogPost.mk (next_pk (posts w))
        (CreatePostForm.title (formdata req)) (CreatePostForm.subtitle (formdata req))
        (strftime_B_d_Y today)
        (CreatePostForm.body (formdata req)) (CreatePostForm.img_url (formdata req))
        (User.id admin) in
    add_new_post_ (req, today) w =
      (Ok (Redirect (url_for ep_get_all_posts)), set_rows (posts w ++ [new_post]) w)
    /\ table_get (posts w ++ [new_post]) (BlogPost.id new_post) = Some new_post
    /\ BlogPost.author new_post = User.id admin
    /\ BlogPost.date new_post = strftime_B_d_Y today
    /\ url_for ep_get_all_posts <> url_for (ep_show_post (BlogPost.id new_post))
    /\ (1 <= month today <= 12 -> 1 <= day today <= 31 ->
        1000 <= year today <= 9999 ->
        exists mon dd yyyy,
          BlogPost.date new_post = mon ++ " " ++ dd ++ ", " ++ yyyy
          /\ In mon month_names
          /\ String.length dd = 2%nat /\ String.length yyyy = 4%nat).
Proof.
  intros req today w admin Hcu Hid Hm Hv. cbv zeta.
  split; [|split; [|split; [|split; [|split]]]].
  - unfold add_new_post. rewrite (admin_only_admin _ _ w admin Hcu Hid).
    unfold add_new_post_view, make_form, validate_on_submit.
    rewrite Hm. simpl. rewrite Hv. unfold bind. rewrite Hcu. reflexivity.
  - cbn [BlogPost.id]. rewrite (table_get_app (posts w)).
    rewrite (next_pk_fresh (posts w)). simpl.
    now rewrite Z.eqb_refl.
  - reflexivity.
  - reflexivity.
  - simpl. intros H. discriminate H.
  - intros Hmon Hday Hyear. exact (strftime_B_d_Y_shape today Hmon Hday Hyear).
Qed.

(** The row written by an edit is the one read back under the same key. *)
Lemma edited_post_stored (post_id : Z) (w : world) (post post' : BlogPost.t) :
  table_get (posts w) post_id = Some post ->
  BlogPost.id post' = BlogPost.id post ->
  table_get (table_update (posts w) post') post_id = Some post'.
Proof.
  intros Hp Hid.
  pose proof (table_get_pk _ _ _ Hp) as Hpk. simpl in Hpk.
  assert (post_id = pk post') as -> by (simpl; congruence).
  apply table_get_update_eq with (r := post). exact Hp.
Qed.

(** What a valid edit submission by a logged-in user does. *)
Lemma edit_post_run (post_id : Z) (req : Request CreatePostForm.t) (w : world)
    (post : BlogPost.t) (u : User.t) :
  method req = POST ->
  CreatePostForm_validate (formdata req) = true ->
  table_get (posts w) post_id = Some post ->
  current_user w = (Ok (LoggedIn u), w) ->
  edit_post_ post_id req w =
    (Ok (Redirect (url_for (ep_show_post post_id))),
     set_rows (table_update (posts w)
                 (BlogPost.mk (BlogPost.id post)
                    (CreatePostForm.title (formdata req))
                    (CreatePostForm.subtitle (formdata req))
                    (BlogPost.date post)
                    (CreatePostForm.body (formdata req))
                    (CreatePostForm.img_url (formdata req))
                    (User.id u))) w).
Proof.
  intros Hm Hv Hp Hcu.
  pose proof (table_get_pk _ _ _ Hp) as Hpk. simpl in Hpk.
  unfold edit_post, bind, db_get_or_404. simpl. rewrite Hp.
  unfold make_form, validate_on_submit. rewrite Hm. simpl. rewrite Hv.
  rewrite Hcu. simpl. now rewrite Hpk.
Qed.

(** C7: a valid edit submission for an existing post by a logged-in user
    stores the submitted title, subtitle, image URL and body, makes that
    user the author whoever the author was, and redirects to the page of
    the post. *)
Theorem edit_post_valid_submission :
  forall (post_id : Z) (req : Request CreatePostForm.t) (w : world)
         (post : BlogPost.t) (u : User.t),
    method req = POST ->
    CreatePostForm_validate (formdata req) = true ->
    table_get (posts w) post_id = Some post ->
    current_user w = (Ok (LoggedIn u), w) ->
    fst (edit_post_ post_id req w) = Ok (Redirect (url_for (ep_show_post post_id)))
    /\ exists post',
         table_get (posts (snd (edit_post_ post_id req w))) post_id = Some post'
         /\ BlogPost.title post' = CreatePostForm.title (formdata req)
         /\ BlogPost.subtitle post' = CreatePostForm.subtitle (formdata req)
         /\ BlogPost.img_url post' = CreatePostForm.img_url (formdata req)
         /\ BlogPost.body post' = CreatePostForm.body (formdata req)
         /\ BlogPost.author post' = User.id u.
Proof.
  intros post_id req w post u Hm Hv Hp Hcu.
  rewrite (edit_post_run post_id req w post u Hm Hv Hp Hcu). simpl.
  split; [reflexivity|].
  eexists. split.
  - apply (edited_post_stored post_id w post); [exact Hp | reflexivity].
  - simpl. repeat split.
Qed.

(** C10: a successful edit keeps the id and the date of the post; it also
    leaves every other post, the number of posts, the users and the
    comments as they were. *)
Theorem edit_post_frame :
  forall (post_id : Z) (req : Request CreatePostForm.t) (w : world)
         (post : BlogPost.t) (u : User.t),
    method req = POST ->
    CreatePostForm_validate (formdata req) = true ->
    table_get (posts w) post_id = Some post ->
    current_user w = (Ok (LoggedIn u), w) ->
    let w' := snd (edit_post_ post_id req w) in
    (exists post',
       table_get (posts w') post_id = Some post'
       /\ BlogPost.id post' = BlogPost.id post
       /\ BlogPost.date post' = BlogPost.date post)
    /\ (forall k, k <> post_id -> table_get (posts w') k = table_get (posts w) k)
    /\ length (posts w') = length (posts w)
    /\ users w' = users w
    /\ comments w' = comments w.
Proof.
  intros post_id req w post u Hm Hv Hp Hcu. cbv zeta.
  rewrite (edit_post_run post_id req w post u Hm Hv Hp Hcu). simpl.
  pose proof (table_get_pk _ _ _ Hp) as Hpk. simpl in Hpk.
  split; [|split; [|split; [|split]]].
  - eexists. split.
    + apply (edited_post_stored post_id w post); [exact Hp | reflexivity].
    + simpl. split; reflexivity.
  - intros k Hk. apply table_get_update_ne. simpl. lia.
  - apply table_update_length.
  - reflexivity.
  - reflexivity.
Qed.

End Posts.

Lemma show_post_comment_submission_witness :
  show_post accept_all 1 (mkRequest POST (CommentForm.mk "hi")) (sample_world None)
  = (Ok (Redirect "/login"),
     push_flash ("message", "You need to login or register to comment.")
       (sample_world None))
  /\
  show_post accept_all 1 (mkRequest POST (CommentForm.mk "hi")) (sample_world (Some 2))
  = (Ok (Rendered (post_html sample_post (LoggedIn sample_reader)
                     (mkForm true (CommentForm.mk "hi"))
                     "https://www.gravatar.com/avatar/?s=100&d=retro&r=g&f=False")),
     mkWorld [sample_admin; sample_reader] [sample_post]
       [sample_comment; Comment.mk 2 "hi" 2 1] (Some 2) []).
Proof.
  split.
  - exact (proj1 (proj1 (show_post_comment_submission accept_all 1
             (mkRequest POST (CommentForm.mk "hi")) (sample_world None) sample_post
             eq_refl eq_refl eq_refl) eq_refl)).
  - exact (proj1 (proj2 (show_post_comment_submission accept_all 1
             (mkRequest POST (CommentForm.mk "hi")) (sample_world (Some 2)) sample_post
             eq_refl eq_refl eq_refl) sample_reader eq_refl)).
Defined.

Lemma show_post_gravatar_fixed_witness :
  exists post cu form,
    post_html sample_post AnonymousUserMixin (mkForm false CommentForm.blank)
      (gravatar_url 100 "g" "retro" false)
    = post_html post cu form
        "https://www.gravatar.com/avatar/?s=100&d=retro&r=g&f=False"
    /\ gravatar_url 100 "g" "retro" false =
         "https://www.gravatar.com/avatar/?s=100&d=retro&r=g&f=False".
Proof.
  exact (show_post_gravatar_fixed accept_all 1
           (mkRequest GET CommentForm.blank) (sample_world None)
           (post_html sample_post AnonymousUserMixin (mkForm false CommentForm.blank)
              (gravatar_url 100 "g" "retro" false))
           eq_refl).
Defined.

Lemma add_new_post_valid_submission_witness :
  add_new_post accept_all
    (mkRequest POST (CreatePostForm.mk "Second" "more" "https://example.com/2.png" "<p>b</p>"),
     sample_date)
    (sample_world (Some 1))
  = (Ok (Redirect "/"),
     mkWorld [sample_admin; sample_reader]
       [sample_post;
        BlogPost.mk 2 "Second" "more" "March 05, 2024" "<p>b</p>"
          "https://example.com/2.png" 1]
       [sample_comment] (Some 1) []).
Proof.
  exact (proj1 (add_new_post_valid_submission accept_all
           (mkRequest POST
              (CreatePostForm.mk "Second" "more" "https://example.com/2.png" "<p>b</p>"))
           sample_date (sample_world (Some 1)) sample_admin
           eq_refl eq_refl eq_refl eq_refl)).
Defined.

Lemma edit_post_valid_submission_witness :
  fst (edit_post accept_all 1
         (mkRequest POST (CreatePostForm.mk "T2" "s2" "https://example.com/e.png" "<p>e</p>"))
         (sample_world (Some 2)))
  = Ok (Redirect "/post/1")
  /\ table_get
       (posts (snd (edit_post accept_all 1
          (mkRequest POST (CreatePostForm.mk "T2" "s2" "https://example.com/e.png" "<p>e</p>"))
          (sample_world (Some 2))))) 1
     = Some (BlogPost.mk 1 "T2" "s2" "March 05, 2024" "<p>e</p>"
               "https://example.com/e.png" 2).
Proof.
  pose proof (edit_post_valid_submission accept_all 1
                (mkRequest POST
                   (CreatePostForm.mk "T2" "s2" "https://example.com/e.png" "<p>e</p>"))
                (sample_world (Some 2)) sample_post sample_reader
                eq_refl eq_refl eq_refl eq_refl) as [Hredirect _].
  split; [exact Hredirect | reflexivity].
Defined.

Lemma edit_post_frame_witness :
  exists post',
    table_get
      (posts (snd (edit_post accept_all 1
         (mkRequest POST (CreatePostForm.mk "T2" "s2" "https://example.com/e.png" "<p>e</p>"))
         (sample_world (Some 2))))) 1
    = Some post'
    /\ BlogPost.id post' = 1
    /\ BlogPost.date post' = "March 05, 2024".
Proof.
  exact (proj1 (edit_post_frame accept_all 1
           (mkRequest POST
              (CreatePostForm.mk "T2" "s2" "https://example.com/e.png" "<p>e</p>"))
           (sample_world (Some 2)) sample_post sample_reader
           eq_refl eq_refl eq_refl eq_refl)).
Defined.

(** ** Contact *)

Section Contact.
Variable ContactForm_validate : ContactForm.t -> bool.
Variable FROM_EMAIL : option string.
Variable PASSWORD : option string.
Variable TO_EMAIL : option string.

Local Abbreviation send_email_ := (send_email FROM_EMAIL PASSWORD TO_EMAIL).
Local Abbreviation contact_ := (contact ContactForm_validate FROM_EMAIL PASSWORD TO_EMAIL).

Lemma smtp_call_world (answer : option exn) (w : world) :
  snd (smtp_call answer w) = w.
Proof. destruct answer; reflexivity. Qed.

(** Sending mail leaves the world alone, and it either returns or raises. *)
Lemma send_email_world (server : smtp_server) (message : string) (w : world) :
  snd (send_email_ server message w) = w
  /\ forall status, fst (send_email_ server message w) <> Aborted status.
Proof.
  unfold send_email, bind, smtp_call, ret, raise.
  destruct (on_connect server "smtp.gmail.com"); [split; [reflexivity | discriminate]|].
  destruct (on_starttls server); [split; [reflexivity | discriminate]|].
  destruct (on_login server FROM_EMAIL PASSWORD); [split; [reflexivity | discriminate]|].
  destruct (on_sendmail server FROM_EMAIL TO_EMAIL message);
    [split; [reflexivity | discriminate]|].
  destruct (on_quit server); split; [reflexivity | discriminate | reflexivity | discriminate].
Qed.

(** The mail is sent exactly when every call to the server returns. *)
Lemma send_email_returns (server : smtp_server) (message : string) (w : world) :
  fst (send_email_ server message w) = Ok tt <->
  on_connect server "smtp.gmail.com" = None
  /\ on_starttls server = None
  /\ on_login server FROM_EMAIL PASSWORD = None
  /\ on_sendmail server FROM_EMAIL TO_EMAIL message = None
  /\ on_quit server = None.
Proof.
  unfold send_email, bind, smtp_call, ret, raise.
  destruct (on_connect server "smtp.gmail.com");
    [split; [discriminate | intros [? _]; discriminate]|].
  destruct (on_starttls server);
    [split; [discriminate | intros [_ [? _]]; discriminate]|].
  destruct (on_login server FROM_EMAIL PASSWORD);
    [split; [discriminate | intros [_ [_ [? _]]]; discriminate]|].
  destruct (on_sendmail server FROM_EMAIL TO_EMAIL message);
    [split; [discriminate | intros [_ [_ [_ [? _]]]]; discriminate]|].
  destruct (on_quit server);
    [split; [discriminate | intros [_ [_ [_ [_ ?]]]]; discriminate]|].
  simpl. split; [intros _; repeat split | reflexivity].
Qed.

(** C8: on a valid contact submission the handler always returns a
    redirect to the contact page, whatever the mail transport does: when
    [send_email] returns, the success message is flashed; when it raises,
    the exception is caught and the failure message is flashed. *)
Theorem contact_valid_submission :
  forall (req : Request ContactForm.t) (server : smtp_server) (w : world),
    method req = POST ->
    ContactForm_validate (formdata req) = true ->
    let formatted_message :=
      construct_msg FROM_EMAIL (ContactForm.name (formdata req))
        (ContactForm.email (formdata req)) (ContactForm.phone_number (formdata req))
        (ContactForm.message (formdata req)) in
    fst (contact_ req server w) = Ok (Redirect (url_for ep_contact))
    /\ (fst (send_email_ server formatted_message w) = Ok tt ->
        snd (contact_ req server w) =
          push_flash ("success", "Your message has been sent successfully!") w)
    /\ (forall e, fst (send_email_ server formatted_message w) = Raised e ->
        snd (contact_ req server w) =
          push_flash ("danger", "An unexpected error occurred. Please try again later") w).
Proof.
  intros req server w Hm Hv. cbv zeta.
  unfold contact, make_form, validate_on_submit. rewrite Hm. simpl. rewrite Hv.
  set (msg := construct_msg FROM_EMAIL _ _ _ _).
  destruct (send_email_world server msg w) as [Hw _].
  cbv beta delta [bind try_except].
  destruct (send_email_ server msg w) as [o w1] eqn:Hsend.
  simpl in Hw. subst w1.
  destruct o as [[]|status|e]; simpl.
  - split; [reflexivity | split]; [intros _; reflexivity | intros e He; discriminate He].
  - split; [reflexivity | split]; [intros He | intros e He]; discriminate He.
  - split; [reflexivity | split]; [intros He; discriminate He | intros e' _; reflexivity].
Qed.

End Contact.

Lemma contact_valid_submission_witness :
  contact accept_all (Some "blog@example.com") (Some "app-token") (Some "owner@example.com")
    (mkRequest POST (ContactForm.mk "Ann" "ann@example.com" "555-0100" "hello"))
    smtp_accepts (sample_world None)
  = (Ok (Redirect "/contact"),
     push_flash ("success", "Your message has been sent successfully!") (sample_world None))
  /\
  contact accept_all (Some "blog@example.com") (Some "app-token") (Some "owner@example.com")
    (mkRequest POST (ContactForm.mk "Ann" "ann@example.com" "555-0100" "hello"))
    smtp_refuses_login (sample_world None)
  = (Ok (Redirect "/contact"),
     push_flash ("danger", "An unexpected error occurred. Please try again later")
       (sample_world None)).
Proof.
  pose proof (contact_valid_submission accept_all
                (Some "blog@example.com") (Some "app-token") (Some "owner@example.com")
                (mkRequest POST (ContactForm.mk "Ann" "ann@example.com" "555-0100" "hello"))
                smtp_accepts (sample_world None) eq_refl eq_refl) as [Hr1 [Hok _]].
  pose proof (contact_valid_submission accept_all
                (Some "blog@example.com") (Some "app-token") (Some "owner@example.com")
                (mkRequest POST (ContactForm.mk "Ann" "ann@example.com" "555-0100" "hello"))
                smtp_refuses_login (sample_world None) eq_refl eq_refl) as [Hr2 [_ Hko]].
  split.
  - rewrite (surjective_pairing (contact _ _ _ _ _ smtp_accepts _)).
    rewrite Hr1, (Hok eq_refl). reflexivity.
  - rewrite (surjective_pairing (contact _ _ _ _ _ smtp_refuses_login _)).
    rewrite Hr2, (Hko _ eq_refl). reflexivity.
Defined.

(** * Further properties *)

(** ** What a request can write *)

Lemma table_get_first {A : Type} `{Model A} (t : list A) (r : A) :
  NoDup (map pk t) -> In r t -> table_get t (pk r) = Some r.
Proof.
  unfold table_get. induction t as [|x t IH]; simpl; intros Hnd Hin.
  - contradiction.
  - inversion Hnd as [|? ? Hnotin Hnd']; subst.
    destruct Hin as [->|Hin].
    + now rewrite Z.eqb_refl.
    + destruct (pk x =? pk r) eqn:E.
      * apply Z.eqb_eq in E. exfalso. apply Hnotin. rewrite E.
        now apply in_map.
      * now apply IH.
Qed.

(** Unfolds a handler down to the matches on the session, the tables and
    the parameters, and splits on each of them. *)
Ltac unfold_views :=
  unfold dispatch, register, login, logout, get_all_posts, show_post,
    add_new_post, add_new_post_view, edit_post, delete_post, delete_post_view,
    about, contact, admin_only, render_template, logout_user, current_user,
    current_user_id,
    mapped_instance, login_user, flash, redirect, load_user,
    db_get_or_404, db_select_scalar, db_select_all, db_add_commit,
    db_commit_dirty, db_delete_commit_BlogPost, try_except, bind, ret,
    abort, raise, push_flash, set_session_user_id, make_form,
    validate_on_submit, is_authenticated.

Ltac split_matches :=
  repeat (cbn [is_submitted data andb negb key_value];
          match goal with
          | |- context [match ?x with _ => _ end] =>
              lazymatch x with
              | context [match _ with _ => _ end] => fail
              | _ => destruct x eqn:?
              end
          end);
  cbn [is_submitted data andb negb key_value].

(** What the mail transport returned does not change the world. *)
Ltac mail_done :=
  repeat match goal with
         | H : send_email ?F ?P ?T ?s ?m ?w = (_, ?w0) |- _ =>
             let E := fresh "E" in
             pose proof (proj1 (send_email_world F P T s m w)) as E;
             rewrite H in E; simpl in E; subst w0; clear H
         end.

Ltac tidy :=
  cbn [fst snd users posts comments session_user_id flashes rows set_rows pk
       User_Model BlogPost_Model Comment_Model is_submitted data
       User.id BlogPost.id Comment.id key_value] in *.

(** Reads [current_user] and [admin_session] off the equations the
    splitting left in the context. *)
Ltac by_session :=
  unfold admin_session; rewrite current_user_spec; cbn [fst];
  repeat match goal with
         | H : negb _ = false |- _ => apply negb_false_iff in H
         | H : negb _ = true |- _ => apply negb_true_iff in H
         end;
  repeat match goal with
         | H : ?l = _ |- context [?l] => rewrite H
         end;
  try reflexivity.

(** Merges what two reads of the same session or table row produced. *)
Ltac merge_reads :=
  repeat match goal with
         | H : Some _ = Some _ |- _ => injection H as H; try subst
         | H : ?a = Some _, H' : ?a = Some _ |- _ => rewrite H in H'
         | H : ?a = Some _, H' : ?a = None |- _ => rewrite H in H'; discriminate H'
         | H : ?a = None, H' : ?a = Some _ |- _ => rewrite H in H'; discriminate H'
         end.

Ltac run_views := unfold_views; split_matches; mail_done; tidy; merge_reads.

Lemma current_user_In (w : world) (u : User.t) :
  fst (current_user w) = Ok (LoggedIn u) ->
  In u (users w) /\ session_user_id w = Some (User.id u).
Proof.
  rewrite current_user_spec. cbn [fst].
  destruct (session_user_id w) as [uid|]; [|discriminate].
  destruct (table_get (users w) uid) as [x|] eqn:Hx; [|discriminate].
  intros Hu. injection Hu as ->.
  pose proof (table_get_pk _ _ _ Hx) as Hpk. cbn [pk User_Model] in Hpk.
  split; [exact (table_get_In _ _ _ Hx) | now rewrite Hpk].
Qed.

Lemma admin_session_spec (w : world) :
  admin_session w = true ->
  exists u, fst (current_user w) = Ok (LoggedIn u) /\ User.id u = 1.
Proof.
  unfold admin_session.
  destruct (fst (current_user w)) as [[|u]| |]; try discriminate.
  intros Hid. exists u. split; [reflexivity | now apply Z.eqb_eq].
Qed.

Lemma NoDup_snoc {A : Type} (l : list A) (a : A) :
  NoDup l -> ~ In a l -> NoDup (l ++ [a]).
Proof.
  intros Hl Ha. apply NoDup_app; [exact Hl | repeat constructor; intros [] |].
  intros x Hx [<-|[]]. contradiction.
Qed.

Lemma NoDup_map_filter {A B : Type} (f : A -> B) (keep : A -> bool) (l : list A) :
  NoDup (map f l) -> NoDup (map f (filter keep l)).
Proof.
  induction l as [|x l IH]; simpl; intros Hnd; [constructor|].
  inversion Hnd as [|? ? Hnotin Hnd']; subst.
  destruct (keep x); simpl; [|now apply IH].
  constructor; [|now apply IH].
  intros Hin. apply Hnotin.
  apply in_map_iff in Hin. destruct Hin as [y [Hy Hin]].
  apply filter_In in Hin. apply in_map_iff. exists y. tauto.
Qed.

Lemma In_table_update {A : Type} `{Model A} (t : list A) (r' x : A) :
  In x (table_update t r') -> x = r' \/ In x t.
Proof.
  unfold table_update. intros Hin. apply in_map_iff in Hin.
  destruct Hin as [y [Hy Hin]].
  destruct (pk y =? pk r'); [left; now symmetry | right; now subst].
Qed.

Section Footprint.
Variable RegisterForm_validate : RegisterForm.t -> bool.
Variable LoginForm_validate : LoginForm.t -> bool.
Variable CommentForm_validate : CommentForm.t -> bool.
Variable CreatePostForm_validate : CreatePostForm.t -> bool.
Variable ContactForm_validate : ContactForm.t -> bool.
Variable generate_password_hash : string -> string -> Z -> string -> string.
Variable check_password_hash : string -> string -> bool.
Variable on_delete_BlogPost : BlogPost.t -> list Comment.t -> option (list Comment.t).
Variable FROM_EMAIL : option string.
Variable PASSWORD : option string.
Variable TO_EMAIL : option string.

Local Abbreviation dispatch_ :=
  (dispatch RegisterForm_validate LoginForm_validate CommentForm_validate
     CreatePostForm_validate ContactForm_validate generate_password_hash
     check_password_hash on_delete_BlogPost FROM_EMAIL PASSWORD TO_EMAIL).

(** Only a registration writes the user table, and it appends one user
    with a fresh id and an email no stored user has. *)
Lemma dispatch_users (rq : request) (w : world) :
  users (snd (dispatch_ rq w)) = users w
  \/ (is_register rq = true
      /\ exists u,
           users (snd (dispatch_ rq w)) = (users w ++ [u])%list
           /\ User.id u = next_pk (users w)
           /\ forall x, In x (users w) -> User.email x <> User.email u).
Proof.
  destruct rq; try (left; run_views; reflexivity).
  run_views; try (left; reflexivity).
  right. split; [reflexivity|]. eexists. split; [reflexivity|].
  split; [reflexivity|]. cbn.
  apply find_email_None. assumption.
Qed.

(** The post table is written by the admin (one post appended under a
    fresh id, or the rows of one id deleted) or by a logged-in user's edit,
    which rewrites the row of one id and keeps its date. *)
Lemma dispatch_posts (rq : request) (w : world) :
  posts (snd (dispatch_ rq w)) = posts w
  \/ (admin_session w = true
      /\ exists u p,
           fst (current_user w) = Ok (LoggedIn u)
           /\ posts (snd (dispatch_ rq w)) = (posts w ++ [p])%list
           /\ BlogPost.id p = next_pk (posts w)
           /\ BlogPost.author p = User.id u)
  \/ (admin_session w = true
      /\ exists k, posts (snd (dispatch_ rq w)) = table_delete (posts w) k)
  \/ (exists u p p',
        fst (current_user w) = Ok (LoggedIn u)
        /\ table_get (posts w) (BlogPost.id p') = Some p
        /\ posts (snd (dispatch_ rq w)) = table_update (posts w) p'
        /\ BlogPost.date p' = BlogPost.date p
        /\ BlogPost.author p' = User.id u).
Proof.
  destruct rq; try (left; run_views; reflexivity).
  - (* add_new_post *)
    run_views; try (left; reflexivity).
    right; left. split; [by_session|]. do 2 eexists. repeat split.
  - (* edit_post *)
    run_views; try (left; reflexivity).
    right; right; right.
    match goal with
    | Hp : table_get (posts w) _ = Some ?p, Hu : table_get (users w) _ = Some ?u |- _ =>
        exists u, p; pose proof (table_get_pk _ _ _ Hp) as Hpk;
        cbn [pk BlogPost_Model] in Hpk
    end.
    eexists. split; [reflexivity|].
    split; [|split; [reflexivity | split; reflexivity]].
    cbn [BlogPost.id]. rewrite Hpk. assumption.
  - (* delete_post *)
    run_views; try (left; reflexivity).
    right; right; left. split; [by_session|]. eexists. reflexivity.
Qed.

(** The comment table is written by a logged-in user's comment on a stored
    post (one row appended under a fresh id, with that user as author) or
    by the admin's deletion of a post. *)
Lemma dispatch_comments (rq : request) (w : world) :
  comments (snd (dispatch_ rq w)) = comments w
  \/ (exists u p c,
        fst (current_user w) = Ok (LoggedIn u) /\ In p (posts w)
        /\ comments (snd (dispatch_ rq w)) = (comments w ++ [c])%list
        /\ Comment.id c = next_pk (comments w)
        /\ Comment.comment_author c = User.id u
        /\ Comment.parent_post c = BlogPost.id p)
  \/ (admin_session w = true
      /\ exists p, In p (posts w)
                   /\ on_delete_BlogPost p (comments w)
                      = Some (comments (snd (dispatch_ rq w)))).
Proof.
  destruct rq; try (left; run_views; reflexivity).
  - (* show_post *)
    run_views; try (left; reflexivity).
    right; left.
    match goal with
    | Hp : table_get (posts w) _ = Some ?p, Hu : table_get (users w) _ = Some ?u |- _ =>
        exists u, p; apply table_get_In in Hp
    end.
    eexists. repeat split; assumption.
  - (* delete_post *)
    run_views; try (left; reflexivity).
    right; right. split; [by_session|].
    match goal with
    | Hp : table_get (posts w) _ = Some ?p |- _ =>
        exists p; apply table_get_In in Hp
    end.
    split; assumption.
Qed.

Local Abbreviation reachable_ :=
  (reachable RegisterForm_validate LoginForm_validate CommentForm_validate
     CreatePostForm_validate ContactForm_validate generate_password_hash
     check_password_hash on_delete_BlogPost FROM_EMAIL PASSWORD TO_EMAIL).

(** X1: whatever requests are served, by whatever clients, the user table
    only grows at its end: no stored user is ever changed or removed. *)
Theorem users_only_grow :
  forall w0 w : world,
    reachable_ w0 w -> exists l, users w = (users w0 ++ l)%list.
Proof.
  intros w0 w Hreach.
  induction Hreach as [|w rq Hr [l IH]|w sid fl Hr IH].
  - exists []. now rewrite app_nil_r.
  - destruct (dispatch_users rq w) as [Hsame|[_ [u [Happ _]]]].
    + exists l. now rewrite Hsame.
    + exists (l ++ [u])%list. rewrite Happ, IH. now rewrite app_assoc.
  - exact IH.
Qed.

(** X2: if no two users share an email, no sequence of requests makes two
    users share one. *)
Theorem emails_stay_unique :
  forall w0 w : world, reachable_ w0 w -> emails_unique w0 -> emails_unique w.
Proof.
  unfold emails_unique. intros w0 w Hreach H0.
  induction Hreach as [|w rq Hr IH|w sid fl Hr IH]; [exact H0| |exact IH].
  destruct (dispatch_users rq w) as [Hsame|[_ [u [Happ [_ Hfresh]]]]].
  - now rewrite Hsame.
  - rewrite Happ, map_app. cbn [map]. apply NoDup_snoc; [exact IH|].
    intros Hin. apply in_map_iff in Hin. destruct Hin as [x [Hx Hin]].
    exact (Hfresh x Hin Hx).
Qed.

(** X3: when deleting a post only filters the comment table, primary keys
    that are distinct in the three tables stay distinct under every
    sequence of requests. *)
Theorem primary_keys_stay_distinct :
  deletes_by_filtering on_delete_BlogPost ->
  forall w0 w, reachable_ w0 w -> keys_distinct w0 -> keys_distinct w.
Proof.
  unfold keys_distinct. intros Hpolicy w0 w Hreach H0.
  induction Hreach as [|w rq Hr IH|w sid fl Hr IH]; [exact H0| |exact IH].
  destruct IH as [Hu [Hp Hc]]. split; [|split].
  - destruct (dispatch_users rq w) as [Hsame|[_ [u [Happ [Hid _]]]]].
    + now rewrite Hsame.
    + rewrite Happ. exact (table_insert_keys_distinct (users w) u Hid Hu).
  - destruct (dispatch_posts rq w)
      as [Hsame|[[_ [u [p [_ [Happ [Hid _]]]]]]|[[_ [k Hdel]]|[u [p [p' [_ [_ [Hupd _]]]]]]]]].
    + now rewrite Hsame.
    + rewrite Happ. exact (table_insert_keys_distinct (posts w) p Hid Hp).
    + rewrite Hdel. exact (table_delete_keys_distinct (posts w) k Hp).
    + rewrite Hupd.
      pose proof (table_update_keys (posts w) p') as Hkeys.
      cbn [pk BlogPost_Model] in Hkeys. now rewrite Hkeys.
  - destruct (dispatch_comments rq w)
      as [Hsame|[[u [p [c [_ [_ [Happ [Hid _]]]]]]]|[_ [p [_ Hdel]]]]].
    + now rewrite Hsame.
    + rewrite Happ. exact (table_insert_keys_distinct (comments w) c Hid Hc).
    + destruct (Hpolicy _ _ _ Hdel) as [keep ->]. now apply NoDup_map_filter.
Qed.

(** X4: if every post's author is a stored user, this stays so under every
    sequence of requests: a post gets its author from the session, and no
    user is ever removed. *)
Theorem post_authors_stay_stored :
  forall w0 w, reachable_ w0 w -> post_authors_stored w0 -> post_authors_stored w.
Proof.
  unfold post_authors_stored. intros w0 w Hreach H0.
  induction Hreach as [|w rq Hr IH|w sid fl Hr IH]; [exact H0| |exact IH].
  assert (forall u, In u (users w) -> In u (users (snd (dispatch_ rq w)))) as Hkeep.
  { intros u Hu. destruct (dispatch_users rq w) as [->|[_ [x [-> _]]]];
      [exact Hu | apply in_or_app; now left]. }
  assert (forall p, In p (posts w) ->
            exists u, In u (users (snd (dispatch_ rq w)))
                      /\ User.id u = BlogPost.author p) as Hold.
  { intros p Hp. destruct (IH p Hp) as [u [Hu Hid]]. exists u. split; auto. }
  intros p Hp.
  destruct (dispatch_posts rq w)
    as [Hsame|[[_ [u [p0 [Hcu [Happ [_ Hauthor]]]]]]|[[_ [k Hdel]]|[u [p1 [p' [Hcu [_ [Hupd [_ Hauthor]]]]]]]]]].
  - rewrite Hsame in Hp. now apply Hold.
  - rewrite Happ in Hp. apply in_app_or in Hp. destruct Hp as [Hp|[<-|[]]].
    + now apply Hold.
    + exists u. split; [apply Hkeep; now apply current_user_In | now symmetry].
  - rewrite Hdel in Hp. unfold table_delete in Hp. apply filter_In in Hp.
    apply Hold. tauto.
  - rewrite Hupd in Hp. apply In_table_update in Hp. destruct Hp as [->|Hp].
    + exists u. split; [apply Hkeep; now apply current_user_In | now symmetry].
    + now apply Hold.
Qed.

(** X5: when deleting a post only filters the comment table, every
    comment's author stays a stored user under every sequence of
    requests. *)
Theorem comment_authors_stay_stored :
  deletes_by_filtering on_delete_BlogPost ->
  forall w0 w, reachable_ w0 w ->
    comment_authors_stored w0 -> comment_authors_stored w.
Proof.
  unfold comment_authors_stored. intros Hpolicy w0 w Hreach H0.
  induction Hreach as [|w rq Hr IH|w sid fl Hr IH]; [exact H0| |exact IH].
  assert (forall u, In u (users w) -> In u (users (snd (dispatch_ rq w)))) as Hkeep.
  { intros u Hu. destruct (dispatch_users rq w) as [->|[_ [x [-> _]]]];
      [exact Hu | apply in_or_app; now left]. }
  assert (forall c, In c (comments w) ->
            exists u, In u (users (snd (dispatch_ rq w)))
                      /\ User.id u = Comment.comment_author c) as Hold.
  { intros c Hc. destruct (IH c Hc) as [u [Hu Hid]]. exists u. split; auto. }
  intros c Hc.
  destruct (dispatch_comments rq w)
    as [Hsame|[[u [p [c0 [Hcu [_ [Happ [_ [Hauthor _]]]]]]]]|[_ [p [_ Hdel]]]]].
  - rewrite Hsame in Hc. now apply Hold.
  - rewrite Happ in Hc. apply in_app_or in Hc. destruct Hc as [Hc|[<-|[]]].
    + now apply Hold.
    + exists u. split; [apply Hkeep; now apply current_user_In | now symmetry].
  - destruct (Hpolicy _ _ _ Hdel) as [keep Hkeep'].
    rewrite Hkeep' in Hc. apply filter_In in Hc. apply Hold. tauto.
Qed.

(** X6: a request that is not made by the admin neither adds nor removes
    a post: the ids in the post table, in order, are the same afterwards. *)
Theorem only_admin_changes_post_ids :
  forall (rq : request) (w : world), admin_session w = false ->
    map BlogPost.id (posts (snd (dispatch_ rq w))) = map BlogPost.id (posts w).
Proof.
  intros rq w Hadmin.
  destruct (dispatch_posts rq w)
    as [Hsame|[[Ha _]|[[Ha _]|[u [p [p' [_ [_ [Hupd _]]]]]]]]].
  - now rewrite Hsame.
  - congruence.
  - congruence.
  - rewrite Hupd. exact (table_update_keys (posts w) p').
Qed.

(** X7: a request without a logged-in user writes to no table, unless it
    is a registration. *)
Theorem anonymous_only_registers :
  forall (rq : request) (w : world), session_user_id w = None -> is_register rq = false ->
    users (snd (dispatch_ rq w)) = users w
    /\ posts (snd (dispatch_ rq w)) = posts w
    /\ comments (snd (dispatch_ rq w)) = comments w.
Proof.
  intros rq w Hanon Hrq.
  assert (forall u, fst (current_user w) <> Ok (LoggedIn u)) as Hnobody.
  { intros u Hu. apply current_user_In in Hu. destruct Hu as [_ Hs]. congruence. }
  assert (admin_session w = false) as Hadmin.
  { destruct (admin_session w) eqn:Ha; [|reflexivity].
    apply admin_session_spec in Ha. destruct Ha as [u [Hu _]].
    now apply Hnobody in Hu. }
  split; [|split].
  - destruct (dispatch_users rq w) as [Hsame|[Hreg _]]; [exact Hsame | congruence].
  - destruct (dispatch_posts rq w)
      as [Hsame|[[Ha _]|[[Ha _]|[u [p [p' [Hcu _]]]]]]];
      [exact Hsame | congruence | congruence | now apply Hnobody in Hcu].
  - destruct (dispatch_comments rq w)
      as [Hsame|[[u [p [c [Hcu _]]]]|[Ha _]]];
      [exact Hsame | now apply Hnobody in Hcu | congruence].
Qed.

(** X8: only registration, login and logout write the session's user id. *)
Theorem session_written_only_by_auth_routes :
  forall (rq : request) (w : world), writes_session rq = false ->
    session_user_id (snd (dispatch_ rq w)) = session_user_id w.
Proof.
  intros rq w Hrq.
  destruct rq; try discriminate Hrq; run_views; first [reflexivity | congruence].
Qed.

(** X9: no request makes the queue of flashed messages longer by more
    than one message. *)
Theorem one_flash_per_request :
  forall (rq : request) (w : world),
    (length (flashes (snd (dispatch_ rq w))) <= S (length (flashes w)))%nat.
Proof.
  intros rq w.
  destruct rq; run_views; rewrite ?length_app; cbn [length]; lia.
Qed.


Local Abbreviation reachable_without_new_post_ :=
  (reachable_without_new_post RegisterForm_validate LoginForm_validate
     CommentForm_validate CreatePostForm_validate ContactForm_validate
     generate_password_hash check_password_hash on_delete_BlogPost
     FROM_EMAIL PASSWORD TO_EMAIL).


End Footprint.

(** ** The guard and the session *)

Lemma find_email_first (l : list User.t) (u : User.t) :
  NoDup (map User.email l) -> In u l ->
  find (fun x => String.eqb (User.email x) (User.email u)) l = Some u.
Proof.
  induction l as [|x l IH]; simpl; intros Hnd Hin; [contradiction|].
  inversion Hnd as [|? ? Hnotin Hnd']; subst.
  destruct Hin as [->|Hin].
  - now rewrite String.eqb_refl.
  - destruct (String.eqb (User.email x) (User.email u)) eqn:E.
    + apply String.eqb_eq in E. exfalso. apply Hnotin. rewrite E.
      now apply in_map.
    + now apply IH.
Qed.

Lemma find_email_snoc (l : list User.t) (u : User.t) :
  (forall x, In x l -> User.email x <> User.email u) ->
  find (fun x => String.eqb (User.email x) (User.email u)) (l ++ [u]) = Some u.
Proof.
  intros Hfresh. induction l as [|x l IH]; simpl.
  - now rewrite String.eqb_refl.
  - assert (String.eqb (User.email x) (User.email u) = false) as ->.
    { apply String.eqb_neq. apply Hfresh. now left. }
    apply IH. intros y Hy. apply Hfresh. now right.
Qed.

Lemma next_pk_lower_bound {A : Type} `{Model A} (t : list A) (r : A) :
  In r t -> pk r < next_pk t.
Proof.
  intros Hin. apply pk_le_fold_max in Hin. unfold next_pk. lia.
Qed.

(** X10: for a logged-in user the guard decides on the id alone. Any other
    id than 1 is answered with 403, the world is left as it was and the
    wrapped view is not run; with id 1 the request is handled by the
    wrapped view. *)
Theorem admin_guard_for_logged_in_users :
  forall (Args : Type) (f : Args -> M response) (args : Args) (w : world) (u : User.t),
    current_user w = (Ok (LoggedIn u), w) ->
    (User.id u <> 1 ->
       forall g : Args -> M response, admin_only g args w = (Aborted 403, w))
    /\ (User.id u = 1 -> admin_only f args w = f args w).
Proof.
  intros Args f args w u Hcu. split.
  - intros Hid g. now apply (admin_only_forbidden g args w u).
  - intros Hid. now apply (admin_only_admin f args w u).
Qed.

Lemma admin_guard_for_logged_in_users_witness :
  admin_only (delete_post_view comments_cascade) 1 (sample_world (Some 2))
    = (Aborted 403, sample_world (Some 2))
  /\ admin_only (delete_post_view comments_cascade) 1 (sample_world (Some 1))
     = delete_post_view comments_cascade 1 (sample_world (Some 1)).
Proof.
  split.
  - refine (proj1 (admin_guard_for_logged_in_users Z
              (delete_post_view comments_cascade) 1 (sample_world (Some 2))
              sample_reader eq_refl) _ (delete_post_view comments_cascade)).
    intros H. discriminate H.
  - exact (proj2 (admin_guard_for_logged_in_users Z
             (delete_post_view comments_cascade) 1 (sample_world (Some 1))
             sample_admin eq_refl) eq_refl).
Defined.

Section Sessions.
Variable RegisterForm_validate : RegisterForm.t -> bool.
Variable LoginForm_validate : LoginForm.t -> bool.
Variable CommentForm_validate : CommentForm.t -> bool.
Variable CreatePostForm_validate : CreatePostForm.t -> bool.
Variable generate_password_hash : string -> string -> Z -> string -> string.
Variable check_password_hash : string -> string -> bool.
Variable on_delete_BlogPost : BlogPost.t -> list Comment.t -> option (list Comment.t).

Local Abbreviation register_ := (register RegisterForm_validate generate_password_hash).
Local Abbreviation login_ := (login LoginForm_validate check_password_hash).
Local Abbreviation show_post_ := (show_post CommentForm_validate).
Local Abbreviation add_new_post_ := (add_new_post CreatePostForm_validate).
Local Abbreviation edit_post_ := (edit_post CreatePostForm_validate).
Local Abbreviation delete_post_ := (delete_post on_delete_BlogPost).

(** What a valid registration does, in its two cases. *)
Lemma register_run (req : Request RegisterForm.t) (entropy : string) (w : world) :
  method req = POST -> RegisterForm_validate (formdata req) = true ->
  ((exists u, In u (users w) /\ User.email u = RegisterForm.email (formdata req)) ->
     register_ req entropy w =
       (Ok (Redirect (url_for ep_login)),
        push_flash ("message",
                    "You've already signed up with that email, log in instead!") w))
  /\
  ((forall x, In x (users w) -> User.email x <> RegisterForm.email (formdata req)) ->
     let new_user :=
       User.mk (next_pk (users w))
         (RegisterForm.email (formdata req)) (RegisterForm.name (formdata req))
         (generate_password_hash (RegisterForm.password (formdata req))
            "pbkdf2:sha256" 8 entropy) in
     let w' := set_session_user_id (Some (User.id new_user))
                 (set_rows (users w ++ [new_user]) w) in
     register_ req entropy w = (Ok (Redirect (url_for ep_get_all_posts)), w')
     /\ current_user w' = (Ok (LoggedIn new_user), w')).
Proof.
  intros Hm Hv.
  unfold register, make_form, validate_on_submit. rewrite Hm.
  cbn [is_submitted data andb]. rewrite Hv.
  unfold bind, db_select_scalar. cbn [rows User_Model].
  split.
  - intros Hex. apply find_email_Some in Hex. destruct Hex as [x ->]. reflexivity.
  - intros Hfresh. rewrite (proj2 (find_email_None _ _) Hfresh).
    split; [reflexivity|].
    rewrite current_user_spec. unfold set_session_user_id.
    cbn [session_user_id users set_rows User_Model User.id].
    rewrite (table_get_app (users w)), (next_pk_fresh (users w)).
    cbn [pk User_Model User.id]. now rewrite Z.eqb_refl.
Qed.

(** A valid comment from a client without user id goes to the login page. *)
Lemma show_post_comment_logged_out (post_id : Z) (req : Request CommentForm.t)
    (w : world) (post : BlogPost.t) :
  method req = POST -> CommentForm_validate (formdata req) = true ->
  table_get (posts w) post_id = Some post ->
  session_user_id w = None ->
  show_post_ post_id req w =
    (Ok (Redirect (url_for ep_login)),
     push_flash ("message", "You need to login or register to comment.") w).
Proof.
  intros Hm Hv Hp Hs.
  unfold show_post, bind, db_get_or_404. cbn [rows BlogPost_Model key_value]. rewrite Hp.
  unfold make_form, validate_on_submit. rewrite Hm. cbn [is_submitted data andb].
  rewrite Hv, current_user_spec, Hs. reflexivity.
Qed.

(** X11: a session that names a user id absent from the user table is
    answered with 404 by [load_user] wherever [current_user] is read: on the
    two guarded routes, and on a valid comment or edit submission for a
    stored post. Nothing is written. *)
Theorem stale_session_is_not_found :
  forall (w : world) (uid : Z),
    session_user_id w = Some uid ->
    table_get (users w) uid = None ->
    (forall req today, add_new_post_ (req, today) w = (Aborted 404, w))
    /\ (forall post_id, delete_post_ post_id w = (Aborted 404, w))
    /\ (forall post_id req post,
          table_get (posts w) post_id = Some post ->
          method req = POST -> CommentForm_validate (formdata req) = true ->
          show_post_ post_id req w = (Aborted 404, w))
    /\ (forall post_id req post,
          table_get (posts w) post_id = Some post ->
          method req = POST -> CreatePostForm_validate (formdata req) = true ->
          edit_post_ post_id req w = (Aborted 404, w)).
Proof.
  intros w uid Hs Hu. split; [|split; [|split]].
  - intros req today. now apply admin_only_stale_session with (uid := uid).
  - intros post_id. now apply admin_only_stale_session with (uid := uid).
  - intros post_id req post Hp Hm Hv.
    unfold show_post, bind, db_get_or_404. cbn [rows BlogPost_Model key_value]. rewrite Hp.
    unfold make_form, validate_on_submit. rewrite Hm. cbn [is_submitted data andb].
    rewrite Hv, current_user_spec, Hs, Hu. reflexivity.
  - intros post_id req post Hp Hm Hv.
    unfold edit_post, bind, db_get_or_404. cbn [rows BlogPost_Model key_value]. rewrite Hp.
    unfold make_form, validate_on_submit. rewrite Hm. cbn [is_submitted data andb].
    rewrite Hv, current_user_spec, Hs, Hu. reflexivity.
Qed.

(** X12: when the session holds no user id, or the id of a stored user,
    logging out redirects to the listing, clears the session's user id and
    touches nothing else; the next read of [current_user] is the anonymous
    user, a second logout changes nothing more, and a valid comment
    submitted afterwards is sent to the login page and not stored. When
    the session names a user id that is not stored, [logout_user] fails in
    [load_user]: the answer is 404 and the session is kept. *)
Theorem logout_ends_the_session :
  forall (w : world),
    (forall cu,
       fst (current_user w) = Ok cu ->
       logout w = (Ok (Redirect (url_for ep_get_all_posts)), set_session_user_id None w)
       /\ current_user (snd (logout w)) = (Ok AnonymousUserMixin, snd (logout w))
       /\ snd (logout (snd (logout w))) = snd (logout w)
       /\ (forall post_id req post,
             table_get (posts w) post_id = Some post ->
             method req = POST -> CommentForm_validate (formdata req) = true ->
             fst (show_post_ post_id req (snd (logout w)))
               = Ok (Redirect (url_for ep_login))
             /\ comments (snd (show_post_ post_id req (snd (logout w)))) = comments w))
    /\ (forall uid,
          session_user_id w = Some uid -> table_get (users w) uid = None ->
          logout w = (Aborted 404, w)).
Proof.
  intros w. split.
  - intros cu Hcu.
    assert (logout w =
              (Ok (Redirect (url_for ep_get_all_posts)), set_session_user_id None w))
      as Hrun.
    { unfold logout, logout_user, bind, redirect, ret.
      rewrite current_user_spec in *. cbn [fst] in Hcu. now rewrite Hcu. }
    rewrite Hrun. cbn [snd].
    split; [reflexivity | split; [reflexivity | split; [reflexivity|]]].
    intros post_id req post Hp Hm Hv.
    rewrite (show_post_comment_logged_out post_id req (set_session_user_id None w)
               post Hm Hv Hp eq_refl).
    split; reflexivity.
  - intros uid Hs Hu. unfold logout, logout_user, bind.
    rewrite current_user_spec, Hs, Hu. reflexivity.
Qed.

(** X13: with unique emails and distinct user ids, a valid login with the
    email of a stored user and a password that matches that user's hash
    redirects to the listing and makes that very user the [current_user]
    of the next request. *)
Theorem login_makes_current_user :
  forall (req : Request LoginForm.t) (w : world) (u : User.t),
    method req = POST -> LoginForm_validate (formdata req) = true ->
    emails_unique w -> NoDup (map User.id (users w)) ->
    In u (users w) -> User.email u = LoginForm.email (formdata req) ->
    check_password_hash (User.password u) (LoginForm.password (formdata req)) = true ->
    fst (login_ req w) = Ok (Redirect (url_for ep_get_all_posts))
    /\ current_user (snd (login_ req w)) = (Ok (LoggedIn u), snd (login_ req w)).
Proof.
  intros req w u Hm Hv Hemails Hids Hin Hemail Hcheck.
  pose proof (find_email_first (users w) u Hemails Hin) as Hfind.
  rewrite Hemail in Hfind.
  unfold login, make_form, validate_on_submit. rewrite Hm.
  cbn [is_submitted data andb]. rewrite Hv.
  unfold bind, db_select_scalar. cbn [rows User_Model]. rewrite Hfind, Hcheck.
  cbn [negb]. split; [reflexivity|].
  rewrite current_user_spec.
  unfold login_user, redirect, ret, set_session_user_id.
  cbn [fst snd session_user_id users].
  pose proof (@table_get_first User.t User_Model (users w) u Hids Hin) as Hget.
  cbn [pk User_Model] in Hget. now rewrite Hget.
Qed.

(** X14: if [check_password_hash] accepts what [generate_password_hash]
    produces for the same password, then after a valid registration with a
    new email, a valid login with the same email and password succeeds,
    from whatever session it is made, and binds the session to the id the
    registration gave. *)
Theorem register_then_login :
  (forall password entropy,
     check_password_hash
       (generate_password_hash password "pbkdf2:sha256" 8 entropy) password = true) ->
  forall (req : Request RegisterForm.t) (entropy : string) (w : world)
         (lreq : Request LoginForm.t) (sid : option Z) (fl : list (string * string)),
    method req = POST -> RegisterForm_validate (formdata req) = true ->
    (forall x, In x (users w) -> User.email x <> RegisterForm.email (formdata req)) ->
    method lreq = POST -> LoginForm_validate (formdata lreq) = true ->
    LoginForm.email (formdata lreq) = RegisterForm.email (formdata req) ->
    LoginForm.password (formdata lreq) = RegisterForm.password (formdata req) ->
    let w1 := snd (register_ req entropy w) in
    let w2 := mkWorld (users w1) (posts w1) (comments w1) sid fl in
    fst (login_ lreq w2) = Ok (Redirect (url_for ep_get_all_posts))
    /\ session_user_id (snd (login_ lreq w2)) = Some (next_pk (users w)).
Proof.
  intros Hhash req entropy w lreq sid fl Hm Hv Hfresh Hlm Hlv Hemail Hpw. cbv zeta.
  assert (users (snd (register_ req entropy w)) =
            (users w ++
             [User.mk (next_pk (users w)) (RegisterForm.email (formdata req))
                (RegisterForm.name (formdata req))
                (generate_password_hash (RegisterForm.password (formdata req))
                   "pbkdf2:sha256" 8 entropy)])%list) as Husers.
  { unfold register, make_form, validate_on_submit. rewrite Hm.
    cbn [is_submitted data andb]. rewrite Hv.
    unfold bind, db_select_scalar. cbn [rows User_Model].
    rewrite (proj2 (find_email_None _ _) Hfresh). reflexivity. }
  unfold login, make_form, validate_on_submit. rewrite Hlm.
  cbn [is_submitted data andb]. rewrite Hlv.
  unfold bind, db_select_scalar. cbn [rows User_Model users]. rewrite Husers, Hemail.
  rewrite (find_email_snoc (users w)
             (User.mk (next_pk (users w)) (RegisterForm.email (formdata req))
                (RegisterForm.name (formdata req))
                (generate_password_hash (RegisterForm.password (formdata req))
                   "pbkdf2:sha256" 8 entropy)) Hfresh).
  cbn [User.password]. rewrite Hpw, Hhash. split; reflexivity.
Qed.

(** X15: the first account registered on an empty user table gets id 1,
    and the session that registered it passes the admin guard. *)
Theorem first_registered_user_is_admin :
  forall (req : Request RegisterForm.t) (entropy : string) (w : world),
    users w = [] ->
    method req = POST -> RegisterForm_validate (formdata req) = true ->
    let w' := snd (register_ req entropy w) in
    session_user_id w' = Some 1
    /\ forall (Args : Type) (f : Args -> M response) (args : Args),
         admin_only f args w' = f args w'.
Proof.
  intros req entropy w Hempty Hm Hv.
  assert (forall x, In x (users w) ->
            User.email x <> RegisterForm.email (formdata req)) as Hfresh.
  { intros x Hx. rewrite Hempty in Hx. contradiction. }
  destruct (proj2 (register_run req entropy w Hm Hv) Hfresh) as [Hrun Hcu].
  cbv zeta. rewrite Hrun. cbn [snd].
  assert (next_pk (users w) = 1) as Hone by (rewrite Hempty; reflexivity).
  split.
  - unfold set_session_user_id. cbn [session_user_id User.id]. now rewrite Hone.
  - intros Args f args.
    apply (admin_only_admin f args _ _ Hcu). exact Hone.
Qed.

(** X16: once a user with a positive id is stored, a registration yields
    an id of at least 2, and the session it opens is refused by the admin
    guard. *)
Theorem later_registrations_are_not_admin :
  forall (req : Request RegisterForm.t) (entropy : string) (w : world) (u : User.t),
    In u (users w) -> 1 <= User.id u ->
    method req = POST -> RegisterForm_validate (formdata req) = true ->
    (forall x, In x (users w) -> User.email x <> RegisterForm.email (formdata req)) ->
    let w' := snd (register_ req entropy w) in
    session_user_id w' = Some (next_pk (users w))
    /\ 2 <= next_pk (users w)
    /\ forall (Args : Type) (f : Args -> M response) (args : Args),
         admin_only f args w' = (Aborted 403, w').
Proof.
  intros req entropy w u Hin Hpos Hm Hv Hfresh.
  pose proof (@next_pk_lower_bound User.t User_Model (users w) u Hin) as Hlt. cbn [pk User_Model] in Hlt.
  destruct (proj2 (register_run req entropy w Hm Hv) Hfresh) as [Hrun Hcu].
  cbv zeta. rewrite Hrun. cbn [snd].
  split; [reflexivity | split; [lia|]].
  intros Args f args.
  apply (admin_only_forbidden f args _ _ Hcu). cbn [User.id]. lia.
Qed.

End Sessions.

(** ** Reading, creating, editing and deleting posts *)

Lemma render_template_run (template : identity -> page) (w : world) (cu : identity) :
  fst (current_user w) = Ok cu ->
  render_template template w = (Ok (Rendered (template cu)), w).
Proof.
  intros Hcu. unfold render_template, bind, ret.
  rewrite current_user_spec in *. cbn [fst] in Hcu. now rewrite Hcu.
Qed.

Lemma render_template_world (template : identity -> page) (w : world) :
  snd (render_template template w) = w.
Proof.
  unfold render_template, bind, ret. rewrite current_user_spec.
  destruct (session_user_id w) as [uid|]; [|reflexivity].
  destruct (table_get (users w) uid); reflexivity.
Qed.

Section PostViews.
Variable RegisterForm_validate : RegisterForm.t -> bool.
Variable LoginForm_validate : LoginForm.t -> bool.
Variable CommentForm_validate : CommentForm.t -> bool.
Variable CreatePostForm_validate : CreatePostForm.t -> bool.
Variable ContactForm_validate : ContactForm.t -> bool.
Variable generate_password_hash : string -> string -> Z -> string -> string.
Variable check_password_hash : string -> string -> bool.
Variable on_delete_BlogPost : BlogPost.t -> list Comment.t -> option (list Comment.t).
Variable FROM_EMAIL : option string.
Variable PASSWORD : option string.
Variable TO_EMAIL : option string.

Local Abbreviation register_ := (register RegisterForm_validate generate_password_hash).
Local Abbreviation login_ := (login LoginForm_validate check_password_hash).
Local Abbreviation show_post_ := (show_post CommentForm_validate).
Local Abbreviation add_new_post_ := (add_new_post CreatePostForm_validate).
Local Abbreviation edit_post_ := (edit_post CreatePostForm_validate).
Local Abbreviation delete_post_ := (delete_post on_delete_BlogPost).
Local Abbreviation contact_ := (contact ContactForm_validate FROM_EMAIL PASSWORD TO_EMAIL).

(** X17: the edit route carries no guard. A logged-in user whose id is
    not 1 is refused with 403 on [/new-post] and [/delete/<id>], yet a valid
    edit submitted by that user for a stored post goes through: the
    response redirects to the post and the stored row has the submitted
    title, with that user as author. *)
Theorem edit_is_open_to_non_admins :
  forall (w : world) (u : User.t),
    current_user w = (Ok (LoggedIn u), w) -> User.id u <> 1 ->
    (forall req today, add_new_post_ (req, today) w = (Aborted 403, w))
    /\ (forall post_id, delete_post_ post_id w = (Aborted 403, w))
    /\ (forall post_id req post,
          table_get (posts w) post_id = Some post ->
          method req = POST -> CreatePostForm_validate (formdata req) = true ->
          fst (edit_post_ post_id req w) = Ok (Redirect (url_for (ep_show_post post_id)))
          /\ exists post',
               table_get (posts (snd (edit_post_ post_id req w))) post_id = Some post'
               /\ BlogPost.title post' = CreatePostForm.title (formdata req)
               /\ BlogPost.author post' = User.id u).
Proof.
  intros w u Hcu Hid. split; [|split].
  - intros req today. now apply (admin_only_forbidden _ _ w u).
  - intros post_id. now apply (admin_only_forbidden _ _ w u).
  - intros post_id req post Hp Hm Hv.
    rewrite (edit_post_run CreatePostForm_validate post_id req w post u Hm Hv Hp Hcu).
    cbn [fst snd]. split; [reflexivity|].
    eexists. split.
    + apply (edited_post_stored post_id w post); [exact Hp | reflexivity].
    + split; reflexivity.
Qed.

(** X18: a post created by the admin can be read at once by a client
    without session: [/post/<id>] under the id the post was given renders
    it, and the listing shows it after the posts that were there. *)
Theorem create_then_view :
  forall (req : Request CreatePostForm.t) (today : pydate) (w : world)
         (admin : User.t) (fl : list (string * string)) (view : CommentForm.t),
    current_user w = (Ok (LoggedIn admin), w) -> User.id admin = 1 ->
    method req = POST -> CreatePostForm_validate (formdata req) = true ->
    let new_post :=
      BlogPost.mk (next_pk (posts w))
        (CreatePostForm.title (formdata req)) (CreatePostForm.subtitle (formdata req))
        (strftime_B_d_Y today)
        (CreatePostForm.body (formdata req)) (CreatePostForm.img_url (formdata req))
        (User.id admin) in
    let w1 := snd (add_new_post_ (req, today) w) in
    let visitor := mkWorld (users w1) (posts w1) (comments w1) None fl in
    show_post_ (next_pk (posts w)) (mkRequest GET view) visitor =
      (Ok (Rendered (post_html new_post AnonymousUserMixin
                       (mkForm false CommentForm.blank) gravatar_url_default)),
       visitor)
    /\ get_all_posts visitor =
         (Ok (Rendered (index_html (posts w ++ [new_post]) AnonymousUserMixin)),
          visitor).
Proof.
  intros req today w admin fl view Hcu Hid Hm Hv. cbv zeta.
  assert (add_new_post_ (req, today) w =
            (Ok (Redirect (url_for ep_get_all_posts)),
             set_rows (posts w ++
               [BlogPost.mk (next_pk (posts w))
                  (CreatePostForm.title (formdata req))
                  (CreatePostForm.subtitle (formdata req))
                  (strftime_B_d_Y today)
                  (CreatePostForm.body (formdata req))
                  (CreatePostForm.img_url (formdata req))
                  (User.id admin)]) w)) as Hrun.
  { unfold add_new_post. rewrite (admin_only_admin _ _ w admin Hcu Hid).
    unfold add_new_post_view, make_form, validate_on_submit.
    rewrite Hm. cbn [is_submitted data andb]. rewrite Hv.
    unfold bind. rewrite Hcu. reflexivity. }
  rewrite Hrun. cbn [snd set_rows BlogPost_Model users posts comments].
  split.
  - unfold show_post, bind, db_get_or_404. cbn [rows BlogPost_Model key_value posts].
    rewrite (table_get_app (posts w)), (next_pk_fresh (posts w)).
    cbn [pk BlogPost_Model BlogPost.id]. rewrite Z.eqb_refl.
    reflexivity.
  - reflexivity.
Qed.

(** X19: a GET of a post page, like a POST whose comment does not
    validate, writes nothing; it renders the stored post for whoever the
    session resolves to, with the form as it was bound. *)
Theorem show_post_reads_only :
  forall (post_id : Z) (req : Request CommentForm.t) (w : world),
    validate_on_submit CommentForm_validate (make_form req CommentForm.blank) = false ->
    snd (show_post_ post_id req w) = w
    /\ forall post cu,
         table_get (posts w) post_id = Some post ->
         fst (current_user w) = Ok cu ->
         fst (show_post_ post_id req w) =
           Ok (Rendered (post_html post cu (make_form req CommentForm.blank)
                           gravatar_url_default)).
Proof.
  intros post_id req w Hv.
  unfold show_post, bind, db_get_or_404. cbn [rows BlogPost_Model key_value].
  destruct (table_get (posts w) post_id) as [post|] eqn:Hp.
  - rewrite Hv. split.
    + apply render_template_world.
    + intros post0 cu Hpost Hcu. injection Hpost as <-.
      now rewrite (render_template_run _ w cu Hcu).
  - destruct (in_int64 post_id); (split; [reflexivity | discriminate]).
Qed.

(** X20: when the admin deletes a stored post and the storage engine
    accepts it, the users and every post under another id are as before,
    and the listing shows the remaining posts in their order. *)
Theorem delete_keeps_other_posts :
  forall (post_id : Z) (w : world) (admin : User.t) (post : BlogPost.t)
         (comments' : list Comment.t),
    current_user w = (Ok (LoggedIn admin), w) -> User.id admin = 1 ->
    table_get (posts w) post_id = Some post ->
    on_delete_BlogPost post (comments w) = Some comments' ->
    let w' := snd (delete_post_ post_id w) in
    users w' = users w
    /\ session_user_id w' = session_user_id w
    /\ (forall k, k <> post_id -> table_get (posts w') k = table_get (posts w) k)
    /\ get_all_posts w' =
         (Ok (Rendered (index_html (table_delete (posts w) post_id) (LoggedIn admin))),
          w').
Proof.
  intros post_id w admin post comments' Hcu Hid Hp Hdel. cbv zeta.
  pose proof (table_get_pk _ _ _ Hp) as Hpk. cbn [pk BlogPost_Model] in Hpk.
  assert (delete_post_ post_id w =
            (Ok (Redirect (url_for ep_get_all_posts)),
             set_rows comments' (set_rows (table_delete (posts w) post_id) w))) as Hrun.
  { unfold delete_post. rewrite (admin_only_admin _ _ w admin Hcu Hid).
    unfold delete_post_view, bind, db_get_or_404. cbn [rows BlogPost_Model key_value].
    rewrite Hp. unfold db_delete_commit_BlogPost. rewrite Hdel, Hpk. reflexivity. }
  rewrite Hrun. cbn [snd set_rows BlogPost_Model Comment_Model users posts comments
                     session_user_id].
  split; [reflexivity | split; [reflexivity | split]].
  - intros k Hk. now apply table_get_delete_ne.
  - unfold get_all_posts, bind, db_select_all. cbn [rows BlogPost_Model posts].
    apply render_template_run.
    erewrite current_user_frame with (w := w);
      [now rewrite Hcu | reflexivity | reflexivity].
Qed.

(** X21: for an id that is not stored, [/edit-post/<id>] answers 404
    whatever the request when the id fits the storage engine's 64-bit
    integers, and fails with [OverflowError] (status 500) when it does not;
    nothing is written either way. A GET for a stored post writes nothing
    and renders the post form in edit mode, filled with the title,
    subtitle, image URL and body of the post. *)
Theorem edit_post_form_prefilled :
  forall (post_id : Z) (req : Request CreatePostForm.t) (w : world),
    (table_get (posts w) post_id = None -> in_int64 post_id = true ->
       edit_post_ post_id req w = (Aborted 404, w))
    /\ (table_get (posts w) post_id = None -> in_int64 post_id = false ->
          edit_post_ post_id req w =
            (Raised (OverflowError
                       "Python int too large to convert to SQLite INTEGER"), w)
          /\ status_code (fst (edit_post_ post_id req w)) = 500)
    /\ (forall post cu,
          table_get (posts w) post_id = Some post ->
          method req = GET ->
          fst (current_user w) = Ok cu ->
          edit_post_ post_id req w =
            (Ok (Rendered
                   (make_post_html
                      (mkForm false
                         (CreatePostForm.mk (BlogPost.title post) (BlogPost.subtitle post)
                            (BlogPost.img_url post) (BlogPost.body post)))
                      true cu)),
             w)).
Proof.
  intros post_id req w. split; [|split].
  - intros Hp Hid. unfold edit_post, bind, db_get_or_404.
    cbn [rows BlogPost_Model key_value]. now rewrite Hp, Hid.
  - intros Hp Hid. unfold edit_post, bind, db_get_or_404.
    cbn [rows BlogPost_Model key_value]. rewrite Hp, Hid. split; reflexivity.
  - intros post cu Hp Hm Hcu.
    unfold edit_post, bind, db_get_or_404. cbn [rows BlogPost_Model key_value].
    rewrite Hp.
    unfold make_form, validate_on_submit. rewrite Hm. cbn [is_submitted andb].
    now apply render_template_run.
Qed.

(** X22: a valid edit submitted without a logged-in user fails when the
    anonymous user object is assigned as the author: the exception
    escapes (status 500) and the post is not changed. *)
Theorem edit_post_anonymous_raises :
  forall (post_id : Z) (req : Request CreatePostForm.t) (w : world) (post : BlogPost.t),
    session_user_id w = None ->
    table_get (posts w) post_id = Some post ->
    method req = POST -> CreatePostForm_validate (formdata req) = true ->
    edit_post_ post_id req w =
      (Raised (AttributeError
         "'AnonymousUserMixin' object has no attribute '_sa_instance_state'"), w)
    /\ status_code (fst (edit_post_ post_id req w)) = 500.
Proof.
  intros post_id req w post Hs Hp Hm Hv.
  assert (edit_post_ post_id req w =
            (Raised (AttributeError
               "'AnonymousUserMixin' object has no attribute '_sa_instance_state'"), w))
    as Hrun.
  { unfold edit_post, bind, db_get_or_404. cbn [rows BlogPost_Model key_value]. rewrite Hp.
    unfold make_form, validate_on_submit. rewrite Hm. cbn [is_submitted data andb].
    rewrite Hv, current_user_spec, Hs. reflexivity. }
  rewrite Hrun. split; reflexivity.
Qed.

(** X23: on [/register], [/login] and [/contact], a GET or a submission
    that does not validate writes nothing (no user, no session, no flash,
    no mail outcome recorded) and renders the form again as it was bound. *)
Theorem invalid_submission_rerenders :
  forall (w : world) (cu : identity),
    fst (current_user w) = Ok cu ->
    (forall req entropy,
       validate_on_submit RegisterForm_validate (make_form req RegisterForm.blank) = false ->
       register_ req entropy w =
         (Ok (Rendered (register_html (make_form req RegisterForm.blank) cu)), w))
    /\ (forall req,
          validate_on_submit LoginForm_validate (make_form req LoginForm.blank) = false ->
          login_ req w =
            (Ok (Rendered (login_html (make_form req LoginForm.blank) cu)), w))
    /\ (forall req server,
          validate_on_submit ContactForm_validate (make_form req ContactForm.blank) = false ->
          contact_ req server w =
            (Ok (Rendered (contact_html (make_form req ContactForm.blank) cu false)), w)).
Proof.
  intros w cu Hcu. split; [|split].
  - intros req entropy Hv. unfold register. rewrite Hv.
    now apply render_template_run.
  - intros req Hv. unfold login. rewrite Hv. now apply render_template_run.
  - intros req server Hv. unfold contact. rewrite Hv.
    exact (render_template_run
             (fun cu0 => contact_html (make_form req ContactForm.blank) cu0 false)
             w cu Hcu).
Qed.

End PostViews.

(** ** The contact mail *)

Lemma string_length_append (a b : string) :
  String.length (a ++ b) = (String.length a + String.length b)%nat.
Proof. induction a as [|c a IH]; simpl; [reflexivity | now rewrite IH]. Qed.

Lemma string_append_assoc (a b c : string) : (a ++ b) ++ c = a ++ (b ++ c).
Proof. induction a as [|x a IH]; simpl; [reflexivity | now rewrite IH]. Qed.

Lemma substring_all (s : string) : substring 0 (String.length s) s = s.
Proof. induction s as [|c s IH]; simpl; [reflexivity | now rewrite IH]. Qed.

Lemma substring_skip_append (a b : string) :
  substring (String.length a) (String.length b) (a ++ b) = b.
Proof. induction a as [|c a IH]; simpl; [apply substring_all | exact IH]. Qed.

Lemma prefix_append (a b : string) : prefix a (a ++ b) = true.
Proof.
  induction a as [|c a IH]; simpl; [now destruct b|].
  destruct (ascii_dec c c) as [_|Hne]; [exact IH | contradiction].
Qed.

(** X24: the mail built for the contact form starts with the two header
    lines, in which only the sender address varies, and ends with the
    submitted message: the text can be cut out again at the offset given by
    the lengths of the other fields, and the mail is 244 characters longer
    than its five variable parts together. *)
Theorem construct_msg_carries_message :
  forall (FROM_EMAIL : option string) (name email phone_number msg : string),
    let mail := construct_msg FROM_EMAIL name email phone_number msg in
    let offset := (244 + String.length (py_str_opt FROM_EMAIL) + String.length name
                   + String.length email + String.length phone_number)%nat in
    String.length mail = (offset + String.length msg)%nat
    /\ substring offset (String.length msg) mail = msg
    /\ prefix ("Subject: Blog Website Contact " ++ LF
                 ++ "From: noreply <" ++ py_str_opt FROM_EMAIL ++ "> " ++ LF) mail = true.
Proof.
  intros FROM_EMAIL name email phone_number msg. cbv zeta.
  set (head :=
    "Subject: Blog Website Contact " ++ LF
      ++ "From: noreply <" ++ py_str_opt FROM_EMAIL ++ "> " ++ LF ++ LF ++ LF
      ++ indent24 ++ "You got a contact message " ++ LF ++ LF
      ++ indent24 ++ "From: " ++ name ++ " " ++ LF ++ LF
      ++ indent24 ++ "email: " ++ email ++ " " ++ LF ++ LF
      ++ indent24 ++ "phone number: " ++ phone_number ++ " " ++ LF ++ LF
      ++ indent24 ++ "message: ").
  assert (construct_msg FROM_EMAIL name email phone_number msg = head ++ msg) as Hmail.
  { unfold construct_msg, head. now rewrite !string_append_assoc. }
  assert (String.length head =
            (244 + String.length (py_str_opt FROM_EMAIL) + String.length name
             + String.length email + String.length phone_number)%nat) as Hlen.
  { unfold head. rewrite !string_length_append. cbn [String.length LF indent24]. lia. }
  split; [|split].
  - rewrite Hmail, string_length_append, Hlen. reflexivity.
  - rewrite Hmail, <- Hlen. apply substring_skip_append.
  - assert (construct_msg FROM_EMAIL name email phone_number msg =
              ("Subject: Blog Website Contact " ++ LF
                 ++ "From: noreply <" ++ py_str_opt FROM_EMAIL ++ "> " ++ LF)
              ++ (LF ++ LF
                    ++ indent24 ++ "You got a contact message " ++ LF ++ LF
                    ++ indent24 ++ "From: " ++ name ++ " " ++ LF ++ LF
                    ++ indent24 ++ "email: " ++ email ++ " " ++ LF ++ LF
                    ++ indent24 ++ "phone number: " ++ phone_number ++ " " ++ LF ++ LF
                    ++ indent24 ++ "message: " ++ msg)) as Hsplit.
    { unfold construct_msg. now rewrite !string_append_assoc. }
    rewrite Hsplit. apply prefix_append.
Qed.

Section Mail.
Variable FROM_EMAIL : option string.
Variable PASSWORD : option string.
Variable TO_EMAIL : option string.

Local Abbreviation send_email_ := (send_email FROM_EMAIL PASSWORD TO_EMAIL).

(** X25: [send_email] returns exactly when each of its five calls to the
    server returns: the connection to smtp.gmail.com, [starttls], the login
    with the configured address and password, [sendmail] from the sender to
    the recipient with the message, and [quit]. Otherwise it raises; it
    never answers with an HTTP error of its own and never changes the
    world. *)
Theorem send_email_outcome :
  forall (server : smtp_server) (message : string) (w : world),
    snd (send_email_ server message w) = w
    /\ (fst (send_email_ server message w) = Ok tt <->
        on_connect server "smtp.gmail.com" = None
        /\ on_starttls server = None
        /\ on_login server FROM_EMAIL PASSWORD = None
        /\ on_sendmail server FROM_EMAIL TO_EMAIL message = None
        /\ on_quit server = None)
    /\ (fst (send_email_ server message w) = Ok tt
        \/ exists e, fst (send_email_ server message w) = Raised e).
Proof.
  intros server message w.
  destruct (send_email_world FROM_EMAIL PASSWORD TO_EMAIL server message w)
    as [Hw Hnot].
  split; [exact Hw | split; [apply send_email_returns|]].
  destruct (fst (send_email_ server message w)) as [[]|status|e].
  - now left.
  - exfalso. now apply (Hnot status).
  - right. now exists e.
Qed.

End Mail.

(** ** The further properties on the sample database *)

Lemma sample_emails_unique : emails_unique (sample_world None).
Proof.
  unfold emails_unique. simpl. repeat constructor; simpl; intuition discriminate.
Qed.

Lemma sample_keys_distinct : keys_distinct (sample_world None).
Proof.
  unfold keys_distinct. simpl.
  repeat split; repeat constructor; simpl; intuition discriminate.
Qed.

Lemma comments_cascade_filters : deletes_by_filtering comments_cascade.
Proof.
  intros post cs cs' H. unfold comments_cascade in H. injection H as <-.
  eexists. reflexivity.
Qed.

Lemma users_only_grow_witness :
  exists l,
    users (snd (sample_dispatch (req_register sample_registration sample_salt)
                  (sample_world None)))
    = ([sample_admin; sample_reader] ++ l)%list.
Proof.
  exact (users_only_grow accept_all accept_all accept_all accept_all accept_all sample_generate_password_hash sample_check_password_hash comments_cascade sample_FROM_EMAIL sample_PASSWORD sample_TO_EMAIL (sample_world None) _
           (reach_request accept_all accept_all accept_all accept_all accept_all sample_generate_password_hash sample_check_password_hash comments_cascade sample_FROM_EMAIL sample_PASSWORD sample_TO_EMAIL (sample_world None) (sample_world None)
              (req_register sample_registration sample_salt)
              (reach_start accept_all accept_all accept_all accept_all accept_all sample_generate_password_hash sample_check_password_hash comments_cascade sample_FROM_EMAIL sample_PASSWORD sample_TO_EMAIL (sample_world None)))).
Defined.

Lemma emails_stay_unique_witness :
  emails_unique
    (snd (sample_dispatch (req_register sample_registration sample_salt)
            (sample_world None))).
Proof.
  exact (emails_stay_unique accept_all accept_all accept_all accept_all accept_all sample_generate_password_hash sample_check_password_hash comments_cascade sample_FROM_EMAIL sample_PASSWORD sample_TO_EMAIL (sample_world None) _
           (reach_request accept_all accept_all accept_all accept_all accept_all sample_generate_password_hash sample_check_password_hash comments_cascade sample_FROM_EMAIL sample_PASSWORD sample_TO_EMAIL (sample_world None) (sample_world None)
              (req_register sample_registration sample_salt)
              (reach_start accept_all accept_all accept_all accept_all accept_all sample_generate_password_hash sample_check_password_hash comments_cascade sample_FROM_EMAIL sample_PASSWORD sample_TO_EMAIL (sample_world None)))
           sample_emails_unique).
Defined.

Lemma primary_keys_stay_distinct_witness :
  keys_distinct (snd (sample_dispatch (req_delete_post 1) (sample_world (Some 1)))).
Proof.
  exact (primary_keys_stay_distinct accept_all accept_all accept_all accept_all accept_all sample_generate_password_hash sample_check_password_hash comments_cascade sample_FROM_EMAIL sample_PASSWORD sample_TO_EMAIL comments_cascade_filters (sample_world None) _
           (reach_request accept_all accept_all accept_all accept_all accept_all sample_generate_password_hash sample_check_password_hash comments_cascade sample_FROM_EMAIL sample_PASSWORD sample_TO_EMAIL (sample_world None) (sample_world (Some 1))
              (req_delete_post 1)
              (reach_client accept_all accept_all accept_all accept_all accept_all sample_generate_password_hash sample_check_password_hash comments_cascade sample_FROM_EMAIL sample_PASSWORD sample_TO_EMAIL (sample_world None) (sample_world None) (Some 1) []
                 (reach_start accept_all accept_all accept_all accept_all accept_all sample_generate_password_hash sample_check_password_hash comments_cascade sample_FROM_EMAIL sample_PASSWORD sample_TO_EMAIL (sample_world None))))
           sample_keys_distinct).
Defined.

Lemma post_authors_stay_stored_witness :
  post_authors_stored
    (snd (sample_dispatch (req_edit_post 1 sample_edit) (sample_world (Some 2)))).
Proof.
  refine (post_authors_stay_stored accept_all accept_all accept_all accept_all accept_all sample_generate_password_hash sample_check_password_hash comments_cascade sample_FROM_EMAIL sample_PASSWORD sample_TO_EMAIL (sample_world None) _
            (reach_request accept_all accept_all accept_all accept_all accept_all sample_generate_password_hash sample_check_password_hash comments_cascade sample_FROM_EMAIL sample_PASSWORD sample_TO_EMAIL (sample_world None) (sample_world (Some 2))
               (req_edit_post 1 sample_edit)
               (reach_client accept_all accept_all accept_all accept_all accept_all sample_generate_password_hash sample_check_password_hash comments_cascade sample_FROM_EMAIL sample_PASSWORD sample_TO_EMAIL (sample_world None) (sample_world None) (Some 2) []
                  (reach_start accept_all accept_all accept_all accept_all accept_all sample_generate_password_hash sample_check_password_hash comments_cascade sample_FROM_EMAIL sample_PASSWORD sample_TO_EMAIL (sample_world None))))
            _).
  intros p [<-|[]]. exists sample_admin. split; [now left | reflexivity].
Defined.

Lemma comment_authors_stay_stored_witness :
  comment_authors_stored
    (snd (sample_dispatch
            (req_show_post 1 (mkRequest POST (CommentForm.mk "again")))
            (sample_world (Some 2)))).
Proof.
  refine (comment_authors_stay_stored accept_all accept_all accept_all accept_all accept_all sample_generate_password_hash sample_check_password_hash comments_cascade sample_FROM_EMAIL sample_PASSWORD sample_TO_EMAIL comments_cascade_filters (sample_world None) _
            (reach_request accept_all accept_all accept_all accept_all accept_all sample_generate_password_hash sample_check_password_hash comments_cascade sample_FROM_EMAIL sample_PASSWORD sample_TO_EMAIL (sample_world None) (sample_world (Some 2))
               (req_show_post 1 (mkRequest POST (CommentForm.mk "again")))
               (reach_client accept_all accept_all accept_all accept_all accept_all sample_generate_password_hash sample_check_password_hash comments_cascade sample_FROM_EMAIL sample_PASSWORD sample_TO_EMAIL (sample_world None) (sample_world None) (Some 2) []
                  (reach_start accept_all accept_all accept_all accept_all accept_all sample_generate_password_hash sample_check_password_hash comments_cascade sample_FROM_EMAIL sample_PASSWORD sample_TO_EMAIL (sample_world None))))
            _).
  intros c [<-|[]]. exists sample_reader. split; [right; now left | reflexivity].
Defined.

Lemma only_admin_changes_post_ids_witness :
  map BlogPost.id
    (posts (snd (sample_dispatch (req_delete_post 1) (sample_world (Some 2)))))
  = [1].
Proof.
  exact (only_admin_changes_post_ids accept_all accept_all accept_all accept_all accept_all sample_generate_password_hash sample_check_password_hash comments_cascade sample_FROM_EMAIL sample_PASSWORD sample_TO_EMAIL (req_delete_post 1) (sample_world (Some 2))
           eq_refl).
Defined.

Lemma anonymous_only_registers_witness :
  users (snd (sample_dispatch (req_edit_post 1 sample_edit) (sample_world None)))
    = [sample_admin; sample_reader]
  /\ posts (snd (sample_dispatch (req_edit_post 1 sample_edit) (sample_world None)))
     = [sample_post]
  /\ comments (snd (sample_dispatch (req_edit_post 1 sample_edit) (sample_world None)))
     = [sample_comment].
Proof.
  exact (anonymous_only_registers accept_all accept_all accept_all accept_all accept_all sample_generate_password_hash sample_check_password_hash comments_cascade sample_FROM_EMAIL sample_PASSWORD sample_TO_EMAIL (req_edit_post 1 sample_edit) (sample_world None)
           eq_refl eq_refl).
Defined.

Lemma session_written_only_by_auth_routes_witness :
  session_user_id
    (snd (sample_dispatch (req_show_post 1 (mkRequest POST (CommentForm.mk "again")))
            (sample_world (Some 2))))
  = Some 2.
Proof.
  exact (session_written_only_by_auth_routes accept_all accept_all accept_all accept_all accept_all sample_generate_password_hash sample_check_password_hash comments_cascade sample_FROM_EMAIL sample_PASSWORD sample_TO_EMAIL
           (req_show_post 1 (mkRequest POST (CommentForm.mk "again")))
           (sample_world (Some 2)) eq_refl).
Defined.

Lemma stale_session_is_not_found_witness :
  delete_post comments_cascade 1 (sample_world (Some 9))
    = (Aborted 404, sample_world (Some 9))
  /\ show_post accept_all 1 (mkRequest POST (CommentForm.mk "again"))
       (sample_world (Some 9))
     = (Aborted 404, sample_world (Some 9)).
Proof.
  pose proof (stale_session_is_not_found accept_all accept_all comments_cascade
                (sample_world (Some 9)) 9 eq_refl eq_refl) as [_ [Hdel [Hshow _]]].
  split.
  - exact (Hdel 1).
  - exact (Hshow 1 (mkRequest POST (CommentForm.mk "again")) sample_post
             eq_refl eq_refl eq_refl).
Defined.

Lemma logout_ends_the_session_witness :
  logout (sample_world (Some 2)) = (Ok (Redirect "/"), sample_world None)
  /\ fst (show_post accept_all 1 (mkRequest POST (CommentForm.mk "again"))
            (snd (logout (sample_world (Some 2)))))
     = Ok (Redirect "/login")
  /\ logout (sample_world (Some 9)) = (Aborted 404, sample_world (Some 9)).
Proof.
  pose proof (proj1 (logout_ends_the_session accept_all (sample_world (Some 2)))
                (LoggedIn sample_reader) eq_refl)
    as [Hrun [_ [_ Hcomment]]].
  split; [exact Hrun | split].
  - exact (proj1 (Hcomment 1 (mkRequest POST (CommentForm.mk "again")) sample_post
                    eq_refl eq_refl eq_refl)).
  - exact (proj2 (logout_ends_the_session accept_all (sample_world (Some 9)))
             9 eq_refl eq_refl).
Defined.

Lemma login_makes_current_user_witness :
  fst (login accept_all sample_check_password_hash
         (mkRequest POST (LoginForm.mk "reader@example.com" "hunter2"))
         (sample_world None))
  = Ok (Redirect "/")
  /\ current_user
       (snd (login accept_all sample_check_password_hash
               (mkRequest POST (LoginForm.mk "reader@example.com" "hunter2"))
               (sample_world None)))
     = (Ok (LoggedIn sample_reader), sample_world (Some 2)).
Proof.
  refine (login_makes_current_user accept_all sample_check_password_hash
            (mkRequest POST (LoginForm.mk "reader@example.com" "hunter2"))
            (sample_world None) sample_reader eq_refl eq_refl
            sample_emails_unique (proj1 sample_keys_distinct) _ eq_refl eq_refl).
  right. now left.
Defined.

Lemma register_then_login_witness :
  fst (login accept_all unsalted_check_password_hash
         (mkRequest POST (LoginForm.mk "new@example.com" "pw"))
         (mkWorld
            (users (snd (register accept_all unsalted_generate_password_hash
                           sample_registration sample_salt (sample_world None))))
            [sample_post] [sample_comment] None []))
  = Ok (Redirect "/").
Proof.
  refine (proj1 (register_then_login accept_all accept_all
                   unsalted_generate_password_hash unsalted_check_password_hash _
                   sample_registration sample_salt (sample_world None)
                   (mkRequest POST (LoginForm.mk "new@example.com" "pw")) None []
                   eq_refl eq_refl _ eq_refl eq_refl eq_refl eq_refl)).
  - intros password entropy. apply String.eqb_refl.
  - apply find_email_None. reflexivity.
Defined.

Lemma first_registered_user_is_admin_witness :
  session_user_id
    (snd (register accept_all sample_generate_password_hash sample_registration
            sample_salt (mkWorld [] [] [] None [])))
  = Some 1.
Proof.
  exact (proj1 (first_registered_user_is_admin accept_all sample_generate_password_hash
                  sample_registration sample_salt (mkWorld [] [] [] None [])
                  eq_refl eq_refl eq_refl)).
Defined.

Lemma later_registrations_are_not_admin_witness :
  session_user_id
    (snd (register accept_all sample_generate_password_hash sample_registration
            sample_salt (sample_world None)))
  = Some 3.
Proof.
  refine (proj1 (later_registrations_are_not_admin accept_all
                   sample_generate_password_hash sample_registration sample_salt
                   (sample_world None) sample_admin _ _ eq_refl eq_refl _)).
  - now left.
  - simpl. lia.
  - apply find_email_None. reflexivity.
Defined.

Lemma edit_is_open_to_non_admins_witness :
  delete_post comments_cascade 1 (sample_world (Some 2))
    = (Aborted 403, sample_world (Some 2))
  /\ fst (edit_post accept_all 1 sample_edit (sample_world (Some 2)))
     = Ok (Redirect "/post/1").
Proof.
  assert (User.id sample_reader <> 1) as Hid by (intros H; discriminate H).
  pose proof (edit_is_open_to_non_admins accept_all comments_cascade
                (sample_world (Some 2)) sample_reader eq_refl Hid)
    as [_ [Hdel Hedit]].
  split.
  - exact (Hdel 1).
  - exact (proj1 (Hedit 1 sample_edit sample_post eq_refl eq_refl eq_refl)).
Defined.

Lemma create_then_view_witness :
  get_all_posts
    (mkWorld [sample_admin; sample_reader]
       [sample_post;
        BlogPost.mk 2 "T2" "s2" "March 05, 2024" "<p>e</p>" "https://example.com/e.png" 1]
       [sample_comment] None [])
  = (Ok (Rendered
           (index_html
              [sample_post;
               BlogPost.mk 2 "T2" "s2" "March 05, 2024" "<p>e</p>"
                 "https://example.com/e.png" 1]
              AnonymousUserMixin)),
     mkWorld [sample_admin; sample_reader]
       [sample_post;
        BlogPost.mk 2 "T2" "s2" "March 05, 2024" "<p>e</p>" "https://example.com/e.png" 1]
       [sample_comment] None []).
Proof.
  exact (proj2 (create_then_view accept_all accept_all sample_edit sample_date
                  (sample_world (Some 1)) sample_admin [] CommentForm.blank
                  eq_refl eq_refl eq_refl eq_refl)).
Defined.

Lemma show_post_reads_only_witness :
  snd (show_post accept_all 1 (mkRequest GET CommentForm.blank) (sample_world None))
  = sample_world None.
Proof.
  exact (proj1 (show_post_reads_only accept_all 1 (mkRequest GET CommentForm.blank)
                  (sample_world None) eq_refl)).
Defined.

Lemma delete_keeps_other_posts_witness :
  users (snd (delete_post comments_cascade 1 (sample_world (Some 1))))
  = [sample_admin; sample_reader].
Proof.
  exact (proj1 (delete_keeps_other_posts comments_cascade 1 (sample_world (Some 1))
                  sample_admin sample_post [] eq_refl eq_refl eq_refl eq_refl)).
Defined.

Lemma edit_post_form_prefilled_witness :
  edit_post accept_all 7 sample_edit (sample_world None)
    = (Aborted 404, sample_world None)
  /\ status_code
       (fst (edit_post accept_all 9223372036854775808 sample_edit (sample_world None)))
     = 500
  /\ edit_post accept_all 1 (mkRequest GET CreatePostForm.blank) (sample_world None)
     = (Ok (Rendered
              (make_post_html
                 (mkForm false
                    (CreatePostForm.mk "T" "first post" "https://example.com/cover.png"
                       "<p>hello</p>"))
                 true AnonymousUserMixin)),
        sample_world None).
Proof.
  split; [|split].
  - exact (proj1 (edit_post_form_prefilled accept_all 7 sample_edit (sample_world None))
             eq_refl eq_refl).
  - exact (proj2 (proj1 (proj2 (edit_post_form_prefilled accept_all 9223372036854775808
                                  sample_edit (sample_world None)))
                    eq_refl eq_refl)).
  - exact (proj2 (proj2 (edit_post_form_prefilled accept_all 1
                           (mkRequest GET CreatePostForm.blank) (sample_world None)))
             sample_post AnonymousUserMixin eq_refl eq_refl eq_refl).
Defined.

Lemma edit_post_anonymous_raises_witness :
  status_code (fst (edit_post accept_all 1 sample_edit (sample_world None))) = 500.
Proof.
  exact (proj2 (edit_post_anonymous_raises accept_all 1 sample_edit (sample_world None)
                  sample_post eq_refl eq_refl eq_refl eq_refl)).
Defined.

Lemma invalid_submission_rerenders_witness :
  login accept_all sample_check_password_hash (mkRequest GET LoginForm.blank)
    (sample_world None)
  = (Ok (Rendered (login_html (mkForm false LoginForm.blank) AnonymousUserMixin)),
     sample_world None).
Proof.
  exact (proj1 (proj2 (invalid_submission_rerenders accept_all accept_all accept_all
                         sample_generate_password_hash sample_check_password_hash
                         sample_FROM_EMAIL sample_PASSWORD sample_TO_EMAIL
                         (sample_world None) AnonymousUserMixin eq_refl))
           (mkRequest GET LoginForm.blank) eq_refl).
Defined.

(** ** Posts that are not there *)



(** C7 (as the claim states it, refuted): a valid edit of the stored post 1
    submitted without a logged-in user is not redirected to the post; the
    assignment of the author raises, the status is 500 and the post is as
    it was. *)
Lemma edit_post_without_login_is_not_redirected :
  table_get (posts (sample_world None)) 1 = Some sample_post
  /\ edit_post accept_all 1 sample_edit (sample_world None)
     = (Raised (AttributeError
          "'AnonymousUserMixin' object has no attribute '_sa_instance_state'"),
        sample_world None)
  /\ status_code (fst (edit_post accept_all 1 sample_edit (sample_world None))) = 500
  /\ posts (snd (edit_post accept_all 1 sample_edit (sample_world None)))
     = [sample_post].
Proof.
  repeat split.
Qed.
